(** * Treasury dialog and members screen: a shallow embedding

    The development follows two view components of the repository:

    - [apps/nouns-camp/src/components/treasury-dialog.js]: the treasury
      summary (balances, USDC to ETH conversion, auction proceeds, assets
      deployed and their rendering);
    - the members screen ([MembersScreen], its [filteredMembers] memo).

    JavaScript values are embedded as follows.  A [BigInt] is a [Z]; a value
    that may be [null] or [undefined] is an [option]; an object literal is a
    record; an array is a [list]; an expression that may throw evaluates to a
    [completion].  React elements are trees of type [Node]. *)

From Stdlib Require Import ZArith List String Ascii Bool Lia.
From Stdlib Require Import Permutation Sorted OrderedTypeEx.
Import ListNotations.

Local Open Scope string_scope.
Local Open Scope list_scope.
Local Open Scope Z_scope.

(** ** The JavaScript fragment the components rely on *)

Module Js.

(** The exceptions raised by the modelled code: [new Error()], and the
    built-in [TypeError] and [RangeError]. *)
Inductive Exception : Type :=
| Error
| TypeError
| RangeError.

(** The outcome of evaluating an expression. *)
Inductive completion (A : Type) : Type :=
| Normal (a : A)
| Throw (e : Exception).

Arguments Normal {A} a.
Arguments Throw {A} e.

Definition bind {A B : Type} (c : completion A) (k : A -> completion B)
  : completion B :=
  match c with
  | Normal a => k a
  | Throw e => Throw e
  end.

Definition throws {A : Type} (c : completion A) : Prop :=
  exists e, c = Throw e.

(** [a / b] on BigInts: the quotient is truncated toward zero and a zero
    divisor raises a [RangeError]. *)
Definition bigint_div (a b : Z) : completion Z :=
  if b =? 0 then Throw RangeError else Normal (Z.quot a b).

(** [s.endsWith(suffix)]. *)
Definition endsWith (s suffix : string) : bool :=
  let n := String.length s in
  let k := String.length suffix in
  if (k <=? n)%nat then String.eqb (substring (n - k) k s) suffix else false.

(** [list.reduce(f, init)] for a callback that may throw: the elements are
    visited from left to right and the first exception ends the loop. *)
Fixpoint reduce {A B : Type} (f : B -> A -> completion B) (l : list A)
  (init : B) : completion B :=
  match l with
  | [] => Normal init
  | x :: l' => bind (f init x) (reduce f l')
  end.

(** [list.map(f)] for a callback that may throw. *)
Fixpoint map_throwing {A B : Type} (f : A -> completion B) (l : list A)
  : completion (list B) :=
  match l with
  | [] => Normal []
  | x :: l' =>
      bind (f x)
        (fun y => bind (map_throwing f l') (fun ys => Normal (y :: ys)))
  end.

(** [x ?? d]. *)
Definition nullish {A : Type} (x : option A) (d : A) : A :=
  match x with
  | Some v => v
  | None => d
  end.

(** A string as its sequence of UTF-16 code units, where [length] and
    [trim] are about code units. *)
Definition code_units : Type := list N.

(** White space and line terminators, the code units [trim] removes. *)
Definition isWhiteSpace (c : N) : bool :=
  ((9 <=? c) && (c <=? 13)
   || (c =? 32) || (c =? 160) || (c =? 5760)
   || (8192 <=? c) && (c <=? 8202)
   || (c =? 8232) || (c =? 8233) || (c =? 8239) || (c =? 8287)
   || (c =? 12288) || (c =? 65279))%N.

Fixpoint trimStart (s : code_units) : code_units :=
  match s with
  | c :: s' => if isWhiteSpace c then trimStart s' else s
  | [] => []
  end.

Definition trimEnd (s : code_units) : code_units :=
  rev (trimStart (rev s)).

Definition trim (s : code_units) : code_units :=
  trimEnd (trimStart s).

End Js.

Declare Scope js_scope.
Delimit Scope js_scope with js.
Notation "x <- c ;; k" := (Js.bind c (fun x => k))
  (at level 61, c at next level, right associativity) : js_scope.

(** ** Helpers of [@shades/common] *)

Module Shades.

Section Sort.
Context {A : Type}.
Variable comparator : A -> A -> Z.

Fixpoint insert (x : A) (l : list A) : list A :=
  match l with
  | [] => [x]
  | y :: l' =>
      if comparator x y <=? 0 then x :: l else y :: insert x l'
  end.

(** Modelled from the spec: [sort] of [Shades.utils.array], which is
    not among the sources.  The members screen relies on it to return
    the given members "sorted by a default comparator"; the model is
    the stable sort of a copy of the list that [Array.prototype.sort]
    performs: [x] goes before [y] when [comparator x y] is negative,
    and elements that compare as equal keep their order. *)
Fixpoint sort (l : list A) : list A :=
  match l with
  | [] => []
  | x :: l' => insert x (sort l')
  end.
End Sort.

End Shades.

(** ** treasury-dialog.js *)

Module Treasury.
Import Js.
Local Open Scope js_scope.

(** An entry of the requested-assets list: [{ currency, amount }] for a
    fungible currency and [{ currency: "nouns", tokens }] for nouns; a
    property that is not set reads as [undefined]. *)
Record Asset : Type := mkAsset {
  currency : string;
  amount : option Z;
  tokens : option (list Z)
}.

Definition isEth (a : Asset) : bool := String.eqb (currency a) "eth".

(** The callback of the [reduce] in [useAssetsDeployed].  Adding
    [undefined] to a BigInt raises a [TypeError]. *)
Definition mergeAsset (assets : list Asset) (asset : Asset)
  : completion (list Asset) :=
  if endsWith (currency asset) "eth" then
    let ethAmount :=
      nullish (match find isEth assets with
               | Some e => amount e
               | None => None
               end) 0 in
    match amount asset with
    | Some v =>
        Normal (mkAsset "eth" (Some (ethAmount + v)) None
                  :: filter (fun a => negb (isEth a)) assets)
    | None => Throw TypeError
    end
  else Normal (assets ++ [asset]).

(** [getRequestedAssets(transactions).reduce(..., [])], on the list of
    requested assets. *)
Definition mergeAssets (requested : list Asset) : completion (list Asset) :=
  reduce mergeAsset requested [].

(** *** USDC to ETH conversion *)

(** [useChainlinkUsdcToEthConverter], on the result of the oracle read
    ([latestAnswer], an [int256]; [None] while it is not available). *)
Definition useChainlinkUsdcToEthConverter (rate : option Z)
  : option (Z -> completion Z) :=
  match rate with
  | None => None
  | Some rate => Some (fun usdc => bigint_div (usdc * 10 ^ 23) rate)
  end.

(** *** Auction proceeds *)

Inductive OrderDirection : Type := asc | desc.
Inductive AuctionField : Type := startTime | endTime | amountField.

(** The arguments of the [auctions(...)] query, whose selection is
    [{ amount }]. *)
Record AuctionsQuery : Type := mkAuctionsQuery {
  where_settled : bool;
  orderDirection : OrderDirection;
  orderBy : AuctionField;
  first : nat
}.

(** An element of the response.  The subgraph sends the amount, a BigInt
    of its schema, as a decimal string; the embedding keeps the integer
    it denotes. *)
Record AuctionResult : Type := mkAuctionResult {
  auction_amount : Z
}.

(** [BigInt(v)] on a value that denotes an integer. *)
Definition BigInt (v : Z) : Z := v.

Definition auctionsQuery (days : nat) : AuctionsQuery :=
  {| where_settled := true;
     orderDirection := desc;
     orderBy := startTime;
     first := days |}.

(** The [reduce] over the fetched auctions. *)
Definition sumProceeds (auctions : list AuctionResult) : Z :=
  fold_left (fun sum a => sum + BigInt (auction_amount a)) auctions
    (BigInt 0).

(** [useAuctionProceeds({ days })]: [null] until the query has resolved,
    then the sum.  [queryNounsSubgraph] answers the query, [None] while
    the request is pending. *)
Definition useAuctionProceeds
  (queryNounsSubgraph : AuctionsQuery -> option (list AuctionResult))
  (days : nat) : option Z :=
  option_map sumProceeds (queryNounsSubgraph (auctionsQuery days)).

(** An auction as the indexer stores it. *)
Record Auction : Type := mkAuction {
  settled : bool;
  auctionStartTime : Z;
  auctionEndTime : Z;
  auctionAmount : Z
}.

Definition auctionField (f : AuctionField) (a : Auction) : Z :=
  match f with
  | startTime => auctionStartTime a
  | endTime => auctionEndTime a
  | amountField => auctionAmount a
  end.

Definition auctionOrder (q : AuctionsQuery) (a b : Auction) : Z :=
  match orderDirection q with
  | asc => auctionField (orderBy q) a - auctionField (orderBy q) b
  | desc => auctionField (orderBy q) b - auctionField (orderBy q) a
  end.

(** Modelled from the spec: the subgraph client ([nouns-subgraph.js]) and
    the indexer behind it are not among the sources.  The answer to the
    [auctions] query is "the most recent N settled auctions (sorted by
    start time descending)": the auctions that pass the [where] filter,
    in the order [orderBy] and [orderDirection] ask for, cut to the
    [first] N, each reduced to the selected [amount]. *)
Definition subgraphAuctions (indexed : list Auction) (q : AuctionsQuery)
  : list AuctionResult :=
  List.map (fun a => mkAuctionResult (auctionAmount a))
    (firstn (first q)
       (Shades.sort (auctionOrder q)
          (filter (fun a => Bool.eqb (settled a) (where_settled q))
             indexed))).

(** *** Balances *)

(** The result of [useBalance]: an object with a [value]. *)
Record BalanceData : Type := mkBalanceData {
  value : Z
}.

(** The chain reads the hooks perform: [useContract(name)?.address],
    [useBalance({ address }).data] and the [balanceOf] read of
    [useBalanceOf] on the token at an address. *)
Record Chain : Type := mkChain {
  contractAddress : string -> option string;
  useBalance : option string -> option BalanceData;
  readBalanceOf : option string -> option string -> option Z
}.

Definition useBalanceOf (c : Chain) (contract : string)
  (account : option string) : option Z :=
  readBalanceOf c (contractAddress c contract) account.

Record Balances : Type := mkBalances {
  treasuryEth : option Z;
  daoProxyEth : option Z;
  tokenBuyerEth : option Z;
  treasuryUsdc : option Z;
  treasuryWeth : option Z;
  treasuryReth : option Z;
  treasurySteth : option Z;
  treasuryWsteth : option Z;
  forkEscrowNouns : option Z;
  treasuryNouns : option Z
}.

Definition useBalances (c : Chain) : Balances :=
  let treasuryAddress := contractAddress c "executor" in
  let forkEscrowAddress := contractAddress c "fork-escrow" in
  let daoProxyAddress := contractAddress c "dao" in
  let tokenBuyerAddress := contractAddress c "token-buyer" in
  {| treasuryEth := option_map value (useBalance c treasuryAddress);
     daoProxyEth := option_map value (useBalance c daoProxyAddress);
     tokenBuyerEth := option_map value (useBalance c tokenBuyerAddress);
     treasuryUsdc := useBalanceOf c "usdc-token" treasuryAddress;
     treasuryWeth := useBalanceOf c "weth-token" treasuryAddress;
     treasuryReth := useBalanceOf c "reth-token" treasuryAddress;
     treasurySteth := useBalanceOf c "steth-token" treasuryAddress;
     treasuryWsteth := useBalanceOf c "wsteth-token" treasuryAddress;
     forkEscrowNouns := useBalanceOf c "token" forkEscrowAddress;
     treasuryNouns := useBalanceOf c "token" treasuryAddress |}.

(** *** Rendering *)

(** The [tokenSymbol] prop of [FormattedEthWithConditionalTooltip]:
    left out, [false], or a string. *)
Inductive TokenSymbol : Type :=
| symbolDefault
| symbolOff
| symbolText (s : string).

(** What a render produces.  [Empty] is a child that renders nothing
    ([null], [undefined] or [false]).  [UsdcText usdc] stands for the
    string [formatUsdc(usdc)] and [NumberText n] for the number
    [Number(n)], whose digits are not modelled; [FormattedEth] is the
    element [<FormattedEthWithConditionalTooltip portal value=...
    decimals={2} truncationDots={false} localeFormatting />]. *)
#[warnings="-register-all"]
Inductive Node : Type :=
| Empty
| Text (s : string)
| NumberText (n : Z)
| UsdcText (usdc : Z)
| FormattedEth (value : option Z) (tokenSymbol : TokenSymbol)
| EtherscanLink (address : option string) (children : list Node)
| Fragment (children : list Node)
| Element (tag : string) (attributes : list (string * string))
    (children : list Node).

Definition Dl := Element "dl" [].
Definition Dt := Element "dt" [].
Definition Dd := Element "dd" [].
Definition Heading := Element "h2" [].
Definition Small := Element "span" [("data-small", "")].

(** The parenthesised ETH equivalent next to a USDC amount:
    [convertUsdcToEth != null && <span data-small>...</span>]. *)
Definition ethHint (convertUsdcToEth : option (Z -> completion Z))
  (usdc : Z) : completion Node :=
  match convertUsdcToEth with
  | None => Normal Empty
  | Some convert =>
      v <- convert usdc ;;
      Normal (Small [Text "("; Text "≈";
                     FormattedEth (Some v) symbolDefault; Text ")"])
  end.

(** [x === s] for a string or [undefined] [x]. *)
Definition isString (x : option string) (s : string) : bool :=
  match x with
  | Some x => String.eqb x s
  | None => false
  end.

(** The content of the [dd] of an asset-overview row. *)
Definition overviewValue (convertUsdcToEth : option (Z -> completion Z))
  (formatting : option string) (amount : option Z) : completion Node :=
  match amount with
  | None => Normal Empty
  | Some amount =>
      if isString formatting "eth" then
        Normal (FormattedEth (Some amount) symbolOff)
      else if isString formatting "usdc" then
        hint <- ethHint convertUsdcToEth amount ;;
        Normal (Fragment [UsdcText amount; Text " "; hint])
      else Normal (NumberText amount)
  end.

(** The rows of the asset overview: label, formatting and amount. *)
Definition overviewEntries (b : Balances)
  : list (string * option string * option Z) :=
  [ ("ETH", Some "eth", treasuryEth b);
    ("stETH", Some "eth", treasurySteth b);
    ("USDC", Some "usdc", treasuryUsdc b);
    ("rETH", Some "eth", treasuryReth b);
    ("wETH", Some "eth", treasuryWeth b);
    ("wstETH", Some "eth", treasuryWsteth b);
    ("Nouns", None, treasuryNouns b) ].

Definition overviewRow (convertUsdcToEth : option (Z -> completion Z))
  (entry : string * option string * option Z) : completion Node :=
  let '(label, formatting, amount) := entry in
  v <- overviewValue convertUsdcToEth formatting amount ;;
  Normal (Fragment [Dt [Text label]; Dd [v]]).

Definition assetOverview (convertUsdcToEth : option (Z -> completion Z))
  (b : Balances) : completion (list Node) :=
  map_throwing (overviewRow convertUsdcToEth) (overviewEntries b).

(** The [switch (asset.currency)] of the assets-deployed list.
    [formatUnits] reads a property of its argument and [asset.tokens.length]
    one of [asset.tokens]: both raise a [TypeError] on [undefined]. *)
Definition deployedAsset (convertUsdcToEth : option (Z -> completion Z))
  (asset : Asset) : completion Node :=
  if String.eqb (currency asset) "eth" then
    Normal (FormattedEth (amount asset) (symbolText "ETH"))
  else if String.eqb (currency asset) "usdc" then
    match amount asset with
    | None => Throw TypeError
    | Some usdc =>
        hint <- ethHint convertUsdcToEth usdc ;;
        Normal (Fragment [UsdcText usdc; Text " USDC"; Text " "; hint])
    end
  else if String.eqb (currency asset) "nouns" then
    match tokens asset with
    | None => Throw TypeError
    | Some tokens =>
        let count := Z.of_nat (List.length tokens) in
        Normal (Fragment [NumberText count; Text " ";
                          Text (if count =? 1 then "Noun" else "Nouns")])
    end
  else Throw Error.

Definition deployedItem (convertUsdcToEth : option (Z -> completion Z))
  (asset : Asset) : completion Node :=
  n <- deployedAsset convertUsdcToEth asset ;;
  Normal (Element "li" [("key", currency asset)] [n]).

(** [assetsDeployed != null && <ul>...</ul>]. *)
Definition assetsDeployedList
  (convertUsdcToEth : option (Z -> completion Z))
  (assetsDeployed : option (list Asset)) : completion Node :=
  match assetsDeployed with
  | None => Normal Empty
  | Some assets =>
      items <- map_throwing (deployedItem convertUsdcToEth) assets ;;
      Normal (Element "ul" [] items)
  end.

(** The section behind the [treasury-activity] flag. *)
Definition recentActivity (convertUsdcToEth : option (Z -> completion Z))
  (activityDayCount : nat) (auctionProceeds : option Z)
  (assetsDeployed : option (list Asset)) : completion Node :=
  deployed <- assetsDeployedList convertUsdcToEth assetsDeployed ;;
  Normal
    (Fragment
       [ Heading [Text "Activity last ";
                  NumberText (Z.of_nat activityDayCount); Text " days"];
         Dl [ Dt [Text "Auction proceeds"];
              Dd [match auctionProceeds with
                  | Some p => FormattedEth (Some p) symbolDefault
                  | None => Empty
                  end];
              Dt [Text "Assets deployed"];
              Dd [deployed] ] ]).

(** A row of "Other contracts", rendered only for a balance that is not
    [null]. *)
Definition contractRow (balance : option Z) (address : option string)
  (name : string) (content : Z -> list Node) : Node :=
  match balance with
  | None => Empty
  | Some v =>
      Fragment [Dt [EtherscanLink address [Text name]]; Dd (content v)]
  end.

Definition otherContracts (c : Chain) (b : Balances) : list Node :=
  [ contractRow (tokenBuyerEth b) (contractAddress c "token-buyer")
      "Token Buyer"
      (fun v => [FormattedEth (Some v) symbolDefault; Text " ";
                 Small [Text "(swaps ETH → USDC)"]]);
    contractRow (daoProxyEth b) (contractAddress c "dao") "DAO Proxy"
      (fun v => [FormattedEth (Some v) symbolDefault; Text " ";
                 Small [Text "(used for vote refunds)"]]);
    contractRow (forkEscrowNouns b) (contractAddress c "fork-escrow")
      "Fork Escrow"
      (fun v => [NumberText v; Text " Nouns"]) ].

(** The [main] element of [Content]. *)
Definition Content (c : Chain) (rate : option Z)
  (showRecentActivity : bool) (activityDayCount : nat)
  (auctionProceeds : option Z) (assetsDeployed : option (list Asset))
  : completion Node :=
  let b := useBalances c in
  let convertUsdcToEth := useChainlinkUsdcToEthConverter rate in
  overview <- assetOverview convertUsdcToEth b ;;
  activity <-
    (if showRecentActivity
     then recentActivity convertUsdcToEth activityDayCount auctionProceeds
            assetsDeployed
     else Normal Empty) ;;
  Normal
    (Element "main" []
       [ Heading [Text "Asset overview"];
         Dl overview;
         activity;
         Heading [Text "Other contracts"];
         Dl (otherContracts c b);
         Element "p" []
           [Text "More at"; Text " ";
            Element "a"
              [("href", "https://tabs.wtf"); ("target", "_blank");
               ("rel", "norefferer")]
              [Text "tabs.wtf "; Text "↗"]] ]).

(** The labels of the rows in a list of rendered rows: the text of each
    [dt], whether it stands in a fragment or not. *)
Definition dtLabel (n : Node) : list string :=
  match n with
  | Element tag _ children =>
      if String.eqb tag "dt" then
        match children with
        | [Text label] | [EtherscanLink _ [Text label]] => [label]
        | _ => []
        end
      else []
  | _ => []
  end.

Definition rowLabels (rows : list Node) : list string :=
  flat_map (fun n =>
              match n with
              | Fragment children => flat_map dtLabel children
              | _ => dtLabel n
              end) rows.

End Treasury.

(** ** The members screen *)

Module Members.
Import Js.

(** A member of a channel as the list shows it.  [isBlocked] and
    [isStarred] are only ever set to [true] and only tested for truth:
    [false] stands for a property that is not set. *)
Record Member : Type := mkMember {
  id : string;
  displayName : string;
  walletAddress : string;
  ensName : option string;
  profilePicture : option string;
  onlineStatus : option string;
  isBlocked : bool;
  isStarred : bool
}.

(** The selectors of the app state the screen reads. *)
Record State : Type := mkState {
  selectMe : Member;
  selectChannelMembers : string -> list Member;
  selectStarredUserIds : list string;
  selectIsUserBlocked : string -> bool
}.

(** [{ ...m, displayName: `${m.displayName} (you)` }] *)
Definition withYou (m : Member) : Member :=
  mkMember (id m) (displayName m ++ " (you)") (walletAddress m) (ensName m)
    (profilePicture m) (onlineStatus m) (isBlocked m) (isStarred m).

(** [{ ...m, isBlocked: true }] *)
Definition asBlocked (m : Member) : Member :=
  mkMember (id m) (displayName m) (walletAddress m) (ensName m)
    (profilePicture m) (onlineStatus m) true (isStarred m).

(** [{ ...m, isStarred: true }] *)
Definition asStarred (m : Member) : Member :=
  mkMember (id m) (displayName m) (walletAddress m) (ensName m)
    (profilePicture m) (onlineStatus m) (isBlocked m) true.

(** [list.includes(x)] on strings. *)
Definition includes (l : list string) (x : string) : bool :=
  existsb (String.eqb x) l.

(** The callback of [members.map] in [filteredMembers]. *)
Definition annotate (state : State) (m : Member) : Member :=
  if String.eqb (id m) (id (selectMe state)) then withYou m
  else if selectIsUserBlocked state (id m) then asBlocked m
  else if includes (selectStarredUserIds state) (id m) then asStarred m
  else m.

Section FilteredMembers.
(** The comparator [createUserDefaultComparator()] returns and
    [searchUsers], both of [Shades.utils.user], which is not among the
    sources. *)
Variable createUserDefaultComparator : Member -> Member -> Z.
Variable searchUsers : list Member -> code_units -> list Member.

(** The memoised value [filteredMembers] of [MembersScreen]. *)
Definition filteredMembers (state : State) (channelId : string)
  (deferredPendingInput : code_units) : list Member :=
  let query := trim deferredPendingInput in
  let unfilteredMembers :=
    List.map (annotate state) (selectChannelMembers state channelId) in
  if (List.length query <=? 1)%nat
  then Shades.sort createUserDefaultComparator unfilteredMembers
  else searchUsers unfilteredMembers query.
End FilteredMembers.

End Members.

(** ** Specification-side definitions *)

Module Spec.
Import Js Treasury.

(** A currency of the eth family: its tag ends in "eth". *)
Definition ethFamily (a : Asset) : bool := endsWith (currency a) "eth".

(** An asset the merge can add up: of the eth family only with an
    amount. *)
Definition summable (a : Asset) : bool :=
  if ethFamily a then
    match amount a with
    | Some _ => true
    | None => false
    end
  else true.

Definition sumZ (l : list Z) : Z := fold_right Z.add 0 l.

(** The amounts of the eth-family assets of a list. *)
Definition ethAmounts (l : list Asset) : list Z :=
  List.map (fun a => nullish (amount a) 0) (filter ethFamily l).

Definition ethBucket (total : Z) : Asset := mkAsset "eth" (Some total) None.

(** An accumulator of the merge: the "eth" bucket, when there is one,
    followed by the other assets. *)
Definition bucketed (total : option Z) (others : list Asset) : list Asset :=
  match total with
  | Some t => ethBucket t :: others
  | None => others
  end.

(** The running total after the assets of [l]. *)
Definition totalAfter (total : option Z) (l : list Asset) : option Z :=
  match filter ethFamily l with
  | [] => total
  | _ :: _ => Some (nullish total 0 + sumZ (ethAmounts l))
  end.

(** What the merge is to produce: one "eth" bucket with the sum of the
    eth-family amounts, when there is such an asset, then every other
    asset as it came, in the order of the input. *)
Definition merged (l : list Asset) : list Asset :=
  bucketed (totalAfter None l) (filter (fun a => negb (ethFamily a)) l).

(** The settled auctions, latest start first, cut to the first [n]. *)
Definition recentSettled (indexed : list Auction) (n : nat) : list Auction :=
  firstn n
    (Shades.sort (fun a b => auctionStartTime b - auctionStartTime a)
       (filter settled indexed)).

(** The currencies the assets-deployed list knows how to show. *)
Definition handled (currency : string) : Prop :=
  currency = "eth" \/ currency = "usdc" \/ currency = "nouns".

(** The labels of the asset overview, in the order of the rows. *)
Definition overviewLabels : list string :=
  ["ETH"; "stETH"; "USDC"; "rETH"; "wETH"; "wstETH"; "Nouns"].

(** The label of a row that is shown only once its balance has
    resolved. *)
Definition labelIfResolved (balance : option Z) (label : string)
  : list string :=
  match balance with
  | Some _ => [label]
  | None => []
  end.

(** A comparator that orders by what it returns: never positive both
    ways round, and transitive. *)
Definition consistent {A : Type} (comparator : A -> A -> Z) : Prop :=
  (forall a b, 0 < comparator a b -> comparator b a <= 0)
  /\ (forall a b c,
         comparator a b <= 0 -> comparator b c <= 0 -> comparator a c <= 0).

(** [a] may stand before [b]. *)
Definition inOrder {A : Type} (comparator : A -> A -> Z) (a b : A) : Prop :=
  comparator a b <= 0.

(** *** Instances for the examples *)

Definition lowerAscii (c : ascii) : ascii :=
  let n := nat_of_ascii c in
  if ((65 <=? n) && (n <=? 90))%nat then ascii_of_nat (n + 32) else c.

Fixpoint toLowerCase (s : string) : string :=
  match s with
  | EmptyString => EmptyString
  | String c s' => String (lowerAscii c) (toLowerCase s')
  end.

(** A default comparator of the kind the members screen is described
    with: the order of the display names, whatever their case. *)
Definition byDisplayName (a b : Members.Member) : Z :=
  match String.compare (toLowerCase (Members.displayName a))
          (toLowerCase (Members.displayName b)) with
  | Lt => -1
  | Eq => 0
  | Gt => 1
  end.

Definition unitsOf (s : string) : code_units :=
  List.map N_of_ascii (list_ascii_of_string s).

Fixpoint startsWithUnits (s q : code_units) : bool :=
  match q, s with
  | [], _ => true
  | _ :: _, [] => false
  | c :: q', d :: s' => (c =? d)%N && startsWithUnits s' q'
  end.

Fixpoint containsUnits (s q : code_units) : bool :=
  startsWithUnits s q
  || match s with
     | [] => false
     | _ :: s' => containsUnits s' q
     end.

(** A search of the kind the members screen is described with: the
    members whose display name contains the query. *)
Definition searchByName (users : list Members.Member) (query : code_units)
  : list Members.Member :=
  filter (fun u => containsUnits (unitsOf (Members.displayName u)) query)
    users.

Definition alice : Members.Member :=
  Members.mkMember "1" "Alice" "0xa11ce" None None (Some "online") false
    false.
Definition bob : Members.Member :=
  Members.mkMember "2" "Bob" "0xb0b" (Some "bob.eth") None None false false.
Definition carol : Members.Member :=
  Members.mkMember "3" "carol" "0xca201" None None None false false.

(** Alice looks at a channel of three; she has blocked Bob, and starred
    both Bob and Carol. *)
Definition aliceState : Members.State :=
  Members.mkState alice (fun _ => [bob; carol; alice]) ["2"; "3"]
    (fun id => String.eqb id "2").

(** A chain on which only the native balance of the treasury, 5 ETH,
    has resolved. *)
Definition ethOnlyChain : Chain :=
  mkChain (fun name => Some name)
    (fun address =>
       if isString address "executor"
       then Some (mkBalanceData (5 * 10 ^ 18))
       else None)
    (fun _ _ => None).

End Spec.

(** ** The account avatar ([NounsAccountAvatar], [AvatarStack],
    [useNounAvatars]) *)

Module Avatar.
Import Js.

(** A value that may be [undefined] or [null], where the two are told
    apart ([===], default parameters). *)
Inductive nullable (A : Type) : Type :=
| undefined
| null
| defined (a : A).

Arguments undefined {A}.
Arguments null {A}.
Arguments defined {A} a.

(** [x == null]. *)
Definition isNullish {A : Type} (x : nullable A) : bool :=
  match x with
  | defined _ => false
  | _ => true
  end.

(** [x ?? y]. *)
Definition coalesce {A : Type} (x y : nullable A) : nullable A :=
  match x with
  | defined _ => x
  | _ => y
  end.

(** [x === y] on strings that may be [undefined] or [null]. *)
Definition strictEq (x y : nullable string) : bool :=
  match x, y with
  | undefined, undefined => true
  | null, null => true
  | defined a, defined b => String.eqb a b
  | _, _ => false
  end.

(** A parameter with a default: the default stands in for [undefined]
    only. *)
Definition withDefault {A : Type} (x : nullable A) (d : A) : nullable A :=
  match x with
  | undefined => defined d
  | _ => x
  end.

(** [list.slice(0, end)]: a negative [end] counts from the end of the
    list. *)
Definition slice0 {A : Type} (l : list A) (end_ : Z) : list A :=
  let len := Z.of_nat (List.length l) in
  let final := if end_ <? 0 then Z.max (len + end_) 0 else Z.min end_ len in
  firstn (Z.to_nat final) l.

(** [list.map((x, i) => f x i)]. *)
Fixpoint mapi_from {A B : Type} (f : A -> nat -> B) (i : nat) (l : list A)
  : list B :=
  match l with
  | [] => []
  | x :: l' => f x i :: mapi_from f (S i) l'
  end.

Definition mapi {A B : Type} (f : A -> nat -> B) (l : list A) : list B :=
  mapi_from f 0%nat l.

(** [s.slice(2)]. *)
Definition sliceFrom2 (s : string) : string :=
  substring 2 (String.length s - 2) s.

(** An [<Avatar>] of the stack: its key and url, the props handed on, and
    of its css the factor [i] of [bottom] and [right]
    ([calc(offset * i)]), the factor [count - 1] of [width] and [height]
    ([calc(100% - offset * (count - 1))]) and whether it has the box
    shadow. *)
Record StackedAvatar : Type := mkStackedAvatar {
  key : string;
  url : string;
  stackBorderRadius : nullable string;
  background : nullable string;
  offsetSteps : nat;
  shrinkSteps : Z;
  boxShadow : bool
}.

Section Components.
(** [reverse] of [arrayUtils] ([@shades/common/utils]), which is not among
    the sources. *)
Variable reverse : list string -> list string.

(** The avatars [AvatarStack] renders inside its [div]. *)
Definition AvatarStack (urls : option (list string)) (maxCount : option Z)
  (borderRadius background : nullable string) : list StackedAvatar :=
  let urls := nullish urls [] in
  let maxCount := nullish maxCount 4 in
  let count := Z.min (Z.of_nat (List.length urls)) maxCount in
  mapi (fun url i =>
          mkStackedAvatar url url borderRadius background i (count - 1)
            (negb (i =? 0)%nat))
    (reverse (slice0 urls count)).

(** What [NounsAccountAvatar] returns: nothing, the stack, or one
    [<Avatar>] with its [url], [borderRadius] and [signature]. *)
Inductive View : Type :=
| Nothing
| Stack (avatars : list StackedAvatar)
| Single (imageUrl borderRadius signature : nullable string).

(** The body of [NounsAccountAvatar] after its hooks: [ensAvatarUrl] is the
    data of [useEnsAvatar], [nounAvatarUrls] the state of [useNounAvatars].
    The rest props of the stack hold neither [borderRadius] nor
    [placeholder], which the component takes out of them. *)
Definition NounsAccountAvatar (accountAddress ensName : nullable string)
  (ensAvatarUrl : nullable string) (nounAvatarUrls : option (list string))
  (placeholder : option bool) (maxStackCount : option Z)
  (fallbackImageUrl borderRadius background : nullable string) : View :=
  let placeholder := nullish placeholder true in
  let maxStackCount := nullish maxStackCount 2 in
  let borderRadius := withDefault borderRadius "0.3rem" in
  if isNullish ensAvatarUrl
     && match nounAvatarUrls with
        | Some urls => (1 <? List.length urls)%nat
        | None => false
        end
  then Stack (AvatarStack nounAvatarUrls (Some maxStackCount) undefined
                background)
  else
    let nounAvatarUrl :=
      match nounAvatarUrls with
      | Some (u :: _) => defined u
      | _ => undefined
      end in
    let imageUrl :=
      coalesce (coalesce ensAvatarUrl nounAvatarUrl) fallbackImageUrl in
    if negb placeholder && isNullish imageUrl then Nothing
    else
      Single imageUrl
        (if strictEq imageUrl nounAvatarUrl then undefined else borderRadius)
        (coalesce ensName
           (match accountAddress with
            | defined a => defined (sliceFrom2 a)
            | _ => undefined
            end)).
End Components.

(** *** [useNounAvatars] *)

Section NounAvatars.
(** The seeds and [buildDataUriFromSeed(seed, { transparent })] of
    [@shades/common/nouns], which is not among the sources. *)
Variable Seed : Type.
Variable buildDataUriFromSeed : Seed -> bool -> string.

(** The arguments of a call of the hook; a missing option takes its
    default before it gets here. *)
Record Args : Type := mkArgs {
  seeds : option (list Seed);
  enabled : bool;
  transparent : bool
}.

(** The dependencies of the effect: [[enabled, transparent, seeds == null]]. *)
Definition dependencies (a : Args) : bool * bool * bool :=
  (enabled a, transparent a,
   match seeds a with
   | Some _ => false
   | None => true
   end).

Definition sameDependencies (d e : bool * bool * bool) : bool :=
  let '(d1, d2, d3) := d in
  let '(e1, e2, e3) := e in
  Bool.eqb d1 e1 && Bool.eqb d2 e2 && Bool.eqb d3 e3.

(** The hook between renders: the state [avatarUrls], the dependencies of
    the last render, and the imports under way, each with the urls its
    [then] callback is going to set. *)
Record Hook : Type := mkHook {
  avatarUrls : option (list string);
  lastDependencies : option (bool * bool * bool);
  pending : list (list string)
}.

Definition mount : Hook := mkHook None None [].

(** The effect: nothing when the hook is not enabled or has no seeds,
    otherwise an import whose callback maps the seeds of this render. *)
Definition effect (a : Args) (h : Hook) : Hook :=
  match seeds a with
  | Some seeds =>
      if enabled a then
        mkHook (avatarUrls h) (lastDependencies h)
          (pending h
             ++ [List.map (fun seed => buildDataUriFromSeed seed
                                         (transparent a)) seeds])
      else h
  | None => h
  end.

(** A render: the effect runs on the first render and whenever a dependency
    has changed. *)
Definition render (a : Args) (h : Hook) : Hook :=
  let run :=
    match lastDependencies h with
    | Some d => negb (sameDependencies d (dependencies a))
    | None => true
    end in
  let h' := if run then effect a h else h in
  mkHook (avatarUrls h') (Some (dependencies a)) (pending h').

(** The [n]th import under way resolves: its callback sets the state. *)
Definition resolve (n : nat) (h : Hook) : Hook :=
  match nth_error (pending h) n with
  | Some urls =>
      mkHook (Some urls) (lastDependencies h)
        (firstn n (pending h) ++ skipn (S n) (pending h))
  | None => h
  end.

Inductive Event : Type :=
| Render (a : Args)
| Resolve (n : nat).

Definition step (h : Hook) (e : Event) : Hook :=
  match e with
  | Render a => render a h
  | Resolve n => resolve n h
  end.

Definition run (events : list Event) (h : Hook) : Hook :=
  fold_left step events h.

(** A render that asks for urls: enabled, and with seeds. *)
Definition asksForUrls (e : Event) : bool :=
  match e with
  | Render a =>
      enabled a && match seeds a with
                   | Some _ => true
                   | None => false
                   end
  | Resolve _ => false
  end.
End NounAvatars.

Arguments mkArgs {Seed} seeds enabled transparent.
Arguments seeds {Seed} a.
Arguments enabled {Seed} a.
Arguments transparent {Seed} a.
Arguments dependencies {Seed} a.
Arguments effect {Seed} buildDataUriFromSeed a h.
Arguments render {Seed} buildDataUriFromSeed a h.
Arguments Render {Seed} a.
Arguments Resolve {Seed} n.
Arguments step {Seed} buildDataUriFromSeed h e.
Arguments run {Seed} buildDataUriFromSeed events h.
Arguments asksForUrls {Seed} e.

(** The call in [NounsAccountAvatar]:
    [useNounAvatars(nounSeeds, { enabled: !ensOnly && ensAvatarUrl == null,
    transparent })]. *)
Definition nounAvatarsArgs {Seed : Type} (nounSeeds : option (list Seed))
  (ensOnly transparent : bool) (ensAvatarUrl : nullable string)
  : Args Seed :=
  mkArgs nounSeeds (negb ensOnly && isNullish ensAvatarUrl) transparent.

End Avatar.

(** ** The list of the members screen *)

Module MembersList.
Import Members.

(** A call on the navigation object. *)
Inductive Navigation : Type :=
| navigate (screen : string) (userId : string)
| goBack.

(** The [<UserListItem>] of a row, with what its [onSelect] does and
    whether the right column holds the star icon. *)
Record UserListItem : Type := mkUserListItem {
  address : string;
  itemDisplayName : string;
  itemEnsName : option string;
  itemProfilePicture : option string;
  status : option string;
  blocked : bool;
  onSelect : Navigation;
  starIcon : bool
}.

(** [keyExtractor] of the [FlatList]. *)
Definition keyExtractor (item : Member) : string := id item.

(** [renderItem] of the [FlatList]. *)
Definition renderItem (item : Member) : UserListItem :=
  {| address := walletAddress item;
     itemDisplayName := displayName item;
     itemEnsName := ensName item;
     itemProfilePicture := profilePicture item;
     status := onlineStatus item;
     blocked := isBlocked item;
     onSelect := navigate "User modal" (id item);
     starIcon := isStarred item |}.

(** The rows of the list, with their keys. *)
Definition rows (data : list Member) : list (string * UserListItem) :=
  List.map (fun item => (keyExtractor item, renderItem item)) data.

End MembersList.

(** ** Further specification-side definitions *)

Module Properties.
Import Js.

(** No white space at the front. *)
Definition noLeadingSpace (s : code_units) : Prop :=
  match s with
  | c :: _ => isWhiteSpace c = false
  | [] => True
  end.

(** The urls an enabled render of [useNounAvatars] with seeds asks for. *)
Definition urlsOf {Seed : Type} (build : Seed -> bool -> string)
  (a : Avatar.Args Seed) : option (list string) :=
  if Avatar.enabled a then
    option_map (List.map (fun seed => build seed (Avatar.transparent a)))
      (Avatar.seeds a)
  else None.

(** [urls] are the urls one of the renders among [events] asked for. *)
Definition askedFor {Seed : Type} (build : Seed -> bool -> string)
  (events : list (Avatar.Event Seed)) (urls : list string) : Prop :=
  exists a, In (Avatar.Render a) events /\ urlsOf build a = Some urls.

(** A stand-in for [buildDataUriFromSeed] in the examples: the seed's
    digit after "t" or "o". *)
Definition exampleBuild (seed : nat) (transparent : bool) : string :=
  String (if transparent then "t"%char else "o"%char)
    (String (ascii_of_nat (48 + seed)) EmptyString).

(** The box shadow of the [i]th avatar of a stack. *)
Definition shadowAt (i : nat) : bool := negb (i =? 0)%nat.

End Properties.

(** ** What the rows of the treasury dialog are to show *)

Module Shown.
Import Js Treasury.

(** A row of a [dl]: the label in the [dt], the value in the [dd]. *)
Definition rowOf (label : string) (value : Node) : Node :=
  Fragment [Dt [Text label]; Dd [value]].

(** The value of an eth-formatted row: nothing until the balance has
    resolved, then the formatted amount, without the token symbol. *)
Definition ethCell (amount : option Z) : Node :=
  match amount with
  | Some a => FormattedEth (Some a) symbolOff
  | None => Empty
  end.

(** The value of the nouns row: nothing until the balance has resolved,
    then the number. *)
Definition countCell (amount : option Z) : Node :=
  match amount with
  | Some a => NumberText a
  | None => Empty
  end.

(** The value of the USDC row: nothing until the balance has resolved,
    then the formatted amount, a space and the ETH hint. *)
Definition usdcCell (convertUsdcToEth : option (Z -> completion Z))
  (amount : option Z) (value : Node) : Prop :=
  match amount with
  | Some a =>
      exists hint,
        ethHint convertUsdcToEth a = Normal hint
        /\ value = Fragment [UsdcText a; Text " "; hint]
  | None => value = Empty
  end.

(** A row that is there only once its balance has resolved. *)
Definition ifResolved (balance : option Z) (row : Z -> Node) : Node :=
  match balance with
  | Some v => row v
  | None => Empty
  end.

End Shown.

(** ** The requested assets *)

Module Requested.
Import Js Treasury Spec.

(** The currencies of an amount: the eth-equivalent variants and usdc. *)
Inductive Currency : Type :=
| ETH
| STETH
| WETH
| RETH
| WSTETH
| USDC.

Definition tag (c : Currency) : string :=
  match c with
  | ETH => "eth"
  | STETH => "steth"
  | WETH => "weth"
  | RETH => "reth"
  | WSTETH => "wsteth"
  | USDC => "usdc"
  end.

Definition sameCurrency (c d : Currency) : bool :=
  String.eqb (tag c) (tag d).

(** A requested-asset transfer of an executed proposal: an amount of a
    currency, or a noun by its token id. *)
Inductive Transfer : Type :=
| transferAmount (c : Currency) (amount : Z)
| transferNoun (tokenId : Z).

(** The amounts transferred in a currency, in the order of the transfers. *)
Definition amountsOf (c : Currency) (transfers : list Transfer) : list Z :=
  flat_map (fun t =>
              match t with
              | transferAmount d a => if sameCurrency c d then [a] else []
              | transferNoun _ => []
              end) transfers.

(** The ids of the nouns transferred, in the order of the transfers. *)
Definition tokensOf (transfers : list Transfer) : list Z :=
  flat_map (fun t =>
              match t with
              | transferAmount _ _ => []
              | transferNoun id => [id]
              end) transfers.


(** The asset of a currency with these amounts: none without an amount,
    else their sum. *)
Definition assetOf (currency : string) (amounts : list Z) : list Asset :=
  match amounts with
  | [] => []
  | _ :: _ => [mkAsset currency (Some (sumZ amounts)) None]
  end.

(** The nouns asset with these token ids: none without an id. *)
Definition nounsOf (ids : list Z) : list Asset :=
  match ids with
  | [] => []
  | _ :: _ => [mkAsset "nouns" None (Some ids)]
  end.

Definition entryFor (c : Currency) (transfers : list Transfer)
  : list Asset :=
  assetOf (tag c) (amountsOf c transfers).

Definition nounsEntry (transfers : list Transfer) : list Asset :=
  nounsOf (tokensOf transfers).

(** Modelled from the spec: [getRequestedAssets] ([extractAmounts] of
    [utils/transactions.js]), which is not among the sources.  Of the
    requested-asset transfers it is to "merge same-currency amounts"
    ("amounts of same currency merge by summation"), the eth-equivalent
    variants still "tracked independently", and "for the nouns-token
    currency retain the list of transferred token ids": one asset for each
    currency that has a transfer, holding the sum of its amounts, and one
    nouns asset holding the ids.  The spec leaves the order of the assets
    open; the model lists the currencies in the order of [Currency], the
    nouns last. *)
Definition getRequestedAssets (transfers : list Transfer) : list Asset :=
  entryFor ETH transfers ++ entryFor STETH transfers
    ++ entryFor WETH transfers ++ entryFor RETH transfers
    ++ entryFor WSTETH transfers ++ entryFor USDC transfers
    ++ nounsEntry transfers.

(** The assets deployed, from the requested-asset transfers: the [reduce]
    of [useAssetsDeployed] over the requested assets. *)
Definition assetsDeployed (transfers : list Transfer)
  : completion (list Asset) :=
  mergeAssets (getRequestedAssets transfers).

End Requested.

Import Js Treasury Spec.
Import Shown Requested.

(** ** The merge of the assets deployed *)

Lemma isEth_ethFamily (a : Asset) : isEth a = true -> ethFamily a = true.
Proof.
  unfold isEth, ethFamily. intros H.
  apply String.eqb_eq in H. rewrite H. reflexivity.
Qed.

Lemma find_isEth_others (others : list Asset) :
  Forall (fun a => ethFamily a = false) others -> find isEth others = None.
Proof.
  induction 1 as [|a l Ha _ IH]; simpl; [reflexivity|].
  destruct (isEth a) eqn:E; [|exact IH].
  apply isEth_ethFamily in E. congruence.
Qed.

Lemma filter_isEth_others (others : list Asset) :
  Forall (fun a => ethFamily a = false) others ->
  filter (fun a => negb (isEth a)) others = others.
Proof.
  induction 1 as [|a l Ha _ IH]; simpl; [reflexivity|].
  destruct (isEth a) eqn:E; simpl.
  - apply isEth_ethFamily in E. congruence.
  - now rewrite IH.
Qed.

(** One step of the merge on an accumulator made of a bucket and assets
    outside the eth family. *)
Lemma mergeAsset_bucketed (total : option Z) (others : list Asset)
  (a : Asset) :
  Forall (fun a => ethFamily a = false) others ->
  mergeAsset (bucketed total others) a =
  if ethFamily a then
    match amount a with
    | Some v => Normal (bucketed (Some (nullish total 0 + v)) others)
    | None => Throw TypeError
    end
  else Normal (bucketed total (others ++ [a])).
Proof.
  intros Hothers. unfold mergeAsset. fold (ethFamily a).
  destruct (ethFamily a) eqn:Ea.
  - destruct (amount a) as [v|]; [|reflexivity].
    destruct total as [t|]; simpl.
    + now rewrite (filter_isEth_others _ Hothers).
    + now rewrite (find_isEth_others _ Hothers),
        (filter_isEth_others _ Hothers).
  - destruct total; reflexivity.
Qed.

Lemma totalAfter_cons_eth (total : option Z) (a : Asset) (l : list Asset)
  (v : Z) :
  ethFamily a = true -> amount a = Some v ->
  totalAfter total (a :: l) = totalAfter (Some (nullish total 0 + v)) l.
Proof.
  intros Ea Hv. unfold totalAfter, ethAmounts. simpl. rewrite Ea. simpl.
  rewrite Hv. simpl.
  destruct (filter ethFamily l); simpl; f_equal; lia.
Qed.

Lemma totalAfter_cons_other (total : option Z) (a : Asset) (l : list Asset) :
  ethFamily a = false -> totalAfter total (a :: l) = totalAfter total l.
Proof.
  intros Ea. unfold totalAfter, ethAmounts. simpl. now rewrite Ea.
Qed.

(** The loop, from any accumulator of that shape. *)
Lemma reduce_mergeAsset (l : list Asset) :
  forall (total : option Z) (others : list Asset),
    Forall (fun a => ethFamily a = false) others ->
    reduce mergeAsset l (bucketed total others) =
    if forallb summable l then
      Normal (bucketed (totalAfter total l)
                (others ++ filter (fun a => negb (ethFamily a)) l))
    else Throw TypeError.
Proof.
  induction l as [|a l IH]; intros total others Hothers;
    cbn [reduce forallb filter].
  - now rewrite app_nil_r.
  - rewrite (mergeAsset_bucketed _ _ _ Hothers). unfold summable at 1.
    destruct (ethFamily a) eqn:Ea; cbn [negb].
    + destruct (amount a) as [v|] eqn:Hv; cbn [bind andb]; [|reflexivity].
      rewrite (IH _ _ Hothers).
      now rewrite (totalAfter_cons_eth total a l v Ea Hv).
    + cbn [bind andb]. rewrite IH.
      * rewrite (totalAfter_cons_other total a l Ea).
        now rewrite <- app_assoc.
      * apply Forall_app. split; [assumption|]. now constructor.
Qed.

(** The merge either adds everything up or stops on an eth-family asset
    without an amount. *)
Lemma mergeAssets_merged (requested : list Asset) :
  mergeAssets requested =
  if forallb summable requested then Normal (merged requested)
  else Throw TypeError.
Proof.
  unfold mergeAssets, merged.
  exact (reduce_mergeAsset requested None [] (Forall_nil _)).
Qed.

Lemma merged_others (l : list Asset) :
  Forall (fun a => ethFamily a = false)
    (filter (fun a => negb (ethFamily a)) l).
Proof.
  apply Forall_forall. intros a Ha. apply filter_In in Ha.
  destruct Ha as [_ Ha]. now apply negb_true_iff.
Qed.

Lemma filter_isEth_none (others : list Asset) :
  Forall (fun a => ethFamily a = false) others -> filter isEth others = [].
Proof.
  induction 1 as [|a l Ha _ IH]; simpl; [reflexivity|].
  destruct (isEth a) eqn:E; [|exact IH].
  apply isEth_ethFamily in E. congruence.
Qed.

Lemma mergeAssets_Normal (requested out : list Asset) :
  mergeAssets requested = Normal out ->
  forallb summable requested = true /\ out = merged requested.
Proof.
  rewrite mergeAssets_merged.
  destruct (forallb summable requested); intros H; [|discriminate].
  split; [reflexivity|]. now injection H.
Qed.

(** C1.  The merge of the assets deployed folds the eth family into one
    "eth" bucket by summation: an eth transfer of 2*10^18 and a steth
    transfer of 1*10^18 merge into [{currency: "eth", amount: 3*10^18}],
    and so does every non-empty list of eth-family amounts, into the bucket
    of their sum.  The balances keep the currencies apart: [treasuryEth] is
    the native balance of the treasury and [treasurySteth] the stETH balance
    read for it, and the overview shows each in a row of its own. *)
Theorem eth_family_merges_into_one_bucket :
  mergeAssets [ mkAsset "eth" (Some (2 * 10 ^ 18)) None;
                mkAsset "steth" (Some (1 * 10 ^ 18)) None ]
  = Normal [ mkAsset "eth" (Some (3 * 10 ^ 18)) None ]
  /\ (forall requested : list Asset,
         requested <> [] ->
         Forall (fun a => ethFamily a = true /\ amount a <> None) requested ->
         mergeAssets requested
         = Normal [ mkAsset "eth"
                      (Some (sumZ (List.map (fun a => nullish (amount a) 0)
                                     requested))) None ])
  /\ (forall c : Chain,
         treasuryEth (useBalances c)
         = option_map value (useBalance c (contractAddress c "executor"))
         /\ treasurySteth (useBalances c)
            = readBalanceOf c (contractAddress c "steth-token")
                (contractAddress c "executor"))
  /\ (forall convert (b : Balances) (eth steth : Z),
         treasuryEth b = Some eth -> treasurySteth b = Some steth ->
         List.map (overviewRow convert) (firstn 2 (overviewEntries b))
         = [ Normal (Fragment [Dt [Text "ETH"];
                               Dd [FormattedEth (Some eth) symbolOff]]);
             Normal (Fragment [Dt [Text "stETH"];
                               Dd [FormattedEth (Some steth) symbolOff]]) ]).
Proof.
  split; [reflexivity|]. split; [|split].
  - intros requested Hne Hall. rewrite mergeAssets_merged.
    assert (Hs : forallb summable requested = true).
    { apply forallb_forall. intros a Ha.
      rewrite Forall_forall in Hall. destruct (Hall a Ha) as [Ea Hv].
      unfold summable. rewrite Ea. now destruct (amount a). }
    assert (Hf : filter ethFamily requested = requested).
    { clear Hs Hne. induction Hall as [|a l [Ea _] _ IH]; simpl;
        [reflexivity|]. now rewrite Ea, IH. }
    assert (Hn : filter (fun a => negb (ethFamily a)) requested = []).
    { clear Hs Hne Hf. induction Hall as [|a l [Ea _] _ IH]; simpl;
        [reflexivity|]. now rewrite Ea. }
    rewrite Hs. unfold merged, totalAfter, ethAmounts. rewrite Hn, Hf.
    destruct requested as [|a l]; [contradiction|]. reflexivity.
  - intros c. split; reflexivity.
  - intros convert b eth steth He Hs. simpl. now rewrite He, Hs.
Qed.

Lemma eth_family_merges_into_one_bucket_witness :
  mergeAssets [ mkAsset "weth" (Some 5) None; mkAsset "reth" (Some 7) None;
                mkAsset "wsteth" (Some 30) None ]
  = Normal [ mkAsset "eth" (Some 42) None ]
  /\ List.map (overviewRow None)
       (firstn 2
          (overviewEntries
             (mkBalances (Some 2) None None None None None (Some 1) None None
                None)))
     = [ Normal (Fragment [Dt [Text "ETH"];
                           Dd [FormattedEth (Some 2) symbolOff]]);
         Normal (Fragment [Dt [Text "stETH"];
                           Dd [FormattedEth (Some 1) symbolOff]]) ].
Proof.
  destruct eth_family_merges_into_one_bucket as [_ [Hmerge [_ Hrows]]].
  split.
  - apply (Hmerge [ mkAsset "weth" (Some 5) None;
                    mkAsset "reth" (Some 7) None;
                    mkAsset "wsteth" (Some 30) None ]).
    + discriminate.
    + repeat constructor; discriminate.
  - apply Hrows; reflexivity.
Defined.





(** C10.  The list the merge produces has at most one entry with currency
    "eth", and such an entry is the first element of the list; the merge
    produces a list whenever each eth-family asset carries an amount. *)
Theorem eth_bucket_unique_and_first (requested : list Asset) :
  (forallb summable requested = true ->
   exists out, mergeAssets requested = Normal out)
  /\ (forall out : list Asset,
         mergeAssets requested = Normal out ->
         (List.length (filter isEth out) <= 1)%nat
         /\ (forall a : Asset,
                In a out -> currency a = "eth" -> hd_error out = Some a)).
Proof.
  split.
  - intros Hs. exists (merged requested).
    now rewrite mergeAssets_merged, Hs.
  - intros out H. apply mergeAssets_Normal in H. destruct H as [_ ->].
    unfold merged.
    pose proof (merged_others requested) as Hothers.
    destruct (totalAfter None requested) as [t|]; simpl.
    + rewrite (filter_isEth_none _ Hothers). split; [simpl; lia|].
      intros a [<-|Ha] Hc; [reflexivity|].
      rewrite Forall_forall in Hothers. specialize (Hothers a Ha).
      assert (isEth a = true) as E by (unfold isEth; now rewrite Hc).
      apply isEth_ethFamily in E. congruence.
    + rewrite (filter_isEth_none _ Hothers). split; [simpl; lia|].
      intros a Ha Hc.
      rewrite Forall_forall in Hothers. specialize (Hothers a Ha).
      assert (isEth a = true) as E by (unfold isEth; now rewrite Hc).
      apply isEth_ethFamily in E. congruence.
Qed.

Lemma eth_bucket_unique_and_first_witness :
  exists out : list Asset,
    mergeAssets [ mkAsset "usdc" (Some 4) None; mkAsset "steth" (Some 1) None;
                  mkAsset "eth" (Some 2) None ] = Normal out
    /\ (List.length (filter isEth out) <= 1)%nat
    /\ hd_error out = Some (mkAsset "eth" (Some 3) None).
Proof.
  pose (requested :=
          [ mkAsset "usdc" (Some 4) None; mkAsset "steth" (Some 1) None;
            mkAsset "eth" (Some 2) None ]).
  destruct (eth_bucket_unique_and_first requested) as [Hex Hout].
  destruct (Hex eq_refl) as [out Hok].
  exists out. split; [exact Hok|].
  destruct (Hout out Hok) as [Hone Hfirst]. split; [exact Hone|].
  apply Hfirst; [|reflexivity].
  assert (Hm : mergeAssets requested
               = Normal [ mkAsset "eth" (Some 3) None;
                          mkAsset "usdc" (Some 4) None ]) by reflexivity.
  rewrite Hm in Hok. injection Hok as <-. now left.
Defined.

(** ** The USDC to ETH conversion *)

Lemma bigint_div_nonzero (a b : Z) :
  b <> 0 -> bigint_div a b = Normal (Z.quot a b).
Proof.
  intros Hb. unfold bigint_div.
  destruct (Z.eqb_spec b 0); [contradiction|reflexivity].
Qed.

(** C3 as stated fails: BigInt division truncates toward zero, so at the
    rate -3 the converter returns one more than the floor quotient, and at
    the rate 0 it returns nothing: the division throws. *)
Lemma usdc_conversion_is_not_floor_division :
  (exists convert,
      useChainlinkUsdcToEthConverter (Some (-3)) = Some convert
      /\ convert 1 = Normal (-33333333333333333333333)
      /\ (1 * 10 ^ 23) / (-3) = -33333333333333333333334)
  /\ (exists convert,
         useChainlinkUsdcToEthConverter (Some 0) = Some convert
         /\ convert 1 = Throw RangeError).
Proof.
  split; eexists; (split; [reflexivity|]); [split|]; reflexivity.
Qed.

(** C3, as the code has it.  For an available rate [R] there is a
    converter.  When [R] is not zero it returns [(A * 10^23) / R] with the
    quotient truncated toward zero, which is the floor quotient when [A] is
    not negative and [R] is positive; when [R] is zero the division throws
    a [RangeError].  Without a rate there is no converter, and the USDC
    amounts of the overview and of the assets deployed render without the
    ETH hint. *)
Theorem usdc_conversion :
  (forall R : Z,
      exists convert,
        useChainlinkUsdcToEthConverter (Some R) = Some convert
        /\ (R <> 0 -> forall A, convert A = Normal (Z.quot (A * 10 ^ 23) R))
        /\ (0 < R -> forall A, 0 <= A -> convert A = Normal (A * 10 ^ 23 / R))
        /\ (R = 0 -> forall A, convert A = Throw RangeError))
  /\ useChainlinkUsdcToEthConverter None = None
  /\ (forall usdc : Z,
         ethHint (useChainlinkUsdcToEthConverter None) usdc = Normal Empty
         /\ overviewValue (useChainlinkUsdcToEthConverter None) (Some "usdc")
              (Some usdc)
            = Normal (Fragment [UsdcText usdc; Text " "; Empty])
         /\ forall tokens,
             deployedAsset (useChainlinkUsdcToEthConverter None)
               (mkAsset "usdc" (Some usdc) tokens)
             = Normal (Fragment [UsdcText usdc; Text " USDC"; Text " ";
                                 Empty])).
Proof.
  split; [|split; [reflexivity|]].
  - intros R. eexists. split; [reflexivity|]. cbv beta. split; [|split].
    + intros HR A. now apply bigint_div_nonzero.
    + intros HR A HA. rewrite bigint_div_nonzero by lia.
      f_equal. apply Z.quot_div_nonneg; [|assumption].
      apply Z.mul_nonneg_nonneg; [assumption|]. now apply Z.pow_nonneg.
    + intros -> A. reflexivity.
  - intros usdc. repeat split.
Qed.

Lemma usdc_conversion_witness :
  exists convert,
    useChainlinkUsdcToEthConverter (Some 300000000000000) = Some convert
    /\ convert 2000000 = Normal (2000000 * 10 ^ 23 / 300000000000000)
    /\ convert (-7) = Normal (Z.quot (-7 * 10 ^ 23) 300000000000000)
    /\ exists convert0,
        useChainlinkUsdcToEthConverter (Some 0) = Some convert0
        /\ convert0 2000000 = Throw RangeError.
Proof.
  destruct (proj1 usdc_conversion 300000000000000)
    as [convert [Hc [Hquot [Hfloor _]]]].
  exists convert. split; [exact Hc|]. split; [|split].
  - apply Hfloor; lia.
  - apply Hquot. lia.
  - destruct (proj1 usdc_conversion 0) as [convert0 [Hc0 [_ [_ Hzero]]]].
    exists convert0. split; [exact Hc0|]. now apply Hzero.
Defined.

(** ** The sort *)

Section SortFacts.
Context {A : Type}.
Variable comparator : A -> A -> Z.

Lemma insert_perm (x : A) (l : list A) :
  Permutation (Shades.insert comparator x l) (x :: l).
Proof.
  induction l as [|y l IH]; simpl.
  - apply Permutation_refl.
  - destruct (comparator x y <=? 0).
    + apply Permutation_refl.
    + apply perm_trans with (y :: x :: l).
      * now apply perm_skip.
      * apply perm_swap.
Qed.

Lemma sort_perm (l : list A) : Permutation (Shades.sort comparator l) l.
Proof.
  induction l as [|x l IH]; simpl.
  - apply perm_nil.
  - apply perm_trans with (x :: Shades.sort comparator l).
    + apply insert_perm.
    + now apply perm_skip.
Qed.

Hypothesis comparator_consistent : consistent comparator.

Lemma insert_sorted (x : A) (l : list A) :
  StronglySorted (inOrder comparator) l ->
  StronglySorted (inOrder comparator) (Shades.insert comparator x l).
Proof.
  destruct comparator_consistent as [Htotal Htrans].
  induction 1 as [|y l Hl IH Hy]; simpl.
  - constructor; constructor.
  - destruct (Z.leb_spec (comparator x y) 0) as [Hxy|Hxy].
    + constructor; [now constructor|]. constructor; [exact Hxy|].
      apply Forall_forall. intros z Hz.
      rewrite Forall_forall in Hy. exact (Htrans x y z Hxy (Hy z Hz)).
    + constructor; [exact IH|].
      apply (Permutation_Forall (Permutation_sym (insert_perm x l))).
      constructor; [|exact Hy]. now apply Htotal.
Qed.

Lemma sort_sorted (l : list A) :
  StronglySorted (inOrder comparator) (Shades.sort comparator l).
Proof.
  induction l as [|x l IH]; simpl.
  - constructor.
  - now apply insert_sorted.
Qed.
End SortFacts.

Lemma StronglySorted_weaken {A : Type} (R S : A -> A -> Prop) (l : list A) :
  (forall a b, R a b -> S a b) -> StronglySorted R l -> StronglySorted S l.
Proof.
  intros HRS. induction 1 as [|x l _ IH Hx]; constructor.
  - exact IH.
  - eapply Forall_impl; [|exact Hx]. intros b. apply HRS.
Qed.

(** ** Auction proceeds *)

Lemma fold_left_sum {A : Type} (f : A -> Z) (l : list A) (z : Z) :
  fold_left (fun sum a => sum + f a) l z = z + sumZ (List.map f l).
Proof.
  revert z. induction l as [|a l IH]; intros z; simpl.
  - lia.
  - rewrite IH. lia.
Qed.

Lemma sumProceeds_sum (auctions : list AuctionResult) :
  sumProceeds auctions = sumZ (List.map auction_amount auctions).
Proof.
  unfold sumProceeds, BigInt.
  now rewrite (fold_left_sum auction_amount auctions 0).
Qed.

(** C9.  Once the query has resolved, the auction proceeds are the sum of
    the amounts of the auctions it returned, 0 for none; the query asks for
    the settled auctions by start time, descending, and for as many as the
    window has days, so that over the indexed auctions the proceeds are the
    sum of the amounts of the [days] most recent settled ones. *)
Theorem auction_proceeds_sum_recent_settled :
  (forall (response : list AuctionResult) (days : nat),
      useAuctionProceeds (fun _ => Some response) days
      = Some (sumZ (List.map auction_amount response)))
  /\ (forall days : nat,
         useAuctionProceeds (fun _ => Some []) days = Some 0)
  /\ (forall days : nat,
         auctionsQuery days = mkAuctionsQuery true desc startTime days)
  /\ (forall (indexed : list Auction) (days : nat),
         useAuctionProceeds (fun q => Some (subgraphAuctions indexed q)) days
         = Some (sumZ (List.map auctionAmount (recentSettled indexed days))))
  /\ (forall (indexed : list Auction) (days : nat),
         exists ordered : list Auction,
           Permutation ordered (filter settled indexed)
           /\ StronglySorted
                (fun a b => auctionStartTime b <= auctionStartTime a) ordered
           /\ recentSettled indexed days = firstn days ordered).
Proof.
  split; [|split; [|split; [|split]]];
    [| | | |
     intros indexed days; eexists; split; [apply sort_perm|];
     split; [|reflexivity];
     eapply StronglySorted_weaken; [|apply sort_sorted];
     [intros a b Hab; unfold inOrder in Hab; lia
     |split; intros; lia] ].
  - intros response days. unfold useAuctionProceeds. simpl.
    now rewrite sumProceeds_sum.
  - reflexivity.
  - reflexivity.
  - intros indexed days. unfold useAuctionProceeds. simpl.
    rewrite sumProceeds_sum. unfold subgraphAuctions, recentSettled.
    rewrite List.map_map. cbn [auction_amount where_settled auctionsQuery].
    replace (filter (fun a => Bool.eqb (settled a) true) indexed)
      with (filter settled indexed); [reflexivity|].
    apply filter_ext. intros a. now destruct (settled a).
Qed.

(** ** Rendering *)

Lemma map_throwing_Forall2 {A B : Type} (f : A -> completion B)
  (l : list A) :
  forall rows, map_throwing f l = Normal rows ->
               Forall2 (fun x r => f x = Normal r) l rows.
Proof.
  induction l as [|x l IH]; simpl; intros rows H.
  - injection H as <-. constructor.
  - destruct (f x) as [r|e] eqn:Ex; simpl in H; [|discriminate].
    destruct (map_throwing f l) as [rs|e]; simpl in H; [|discriminate].
    injection H as <-. constructor; [exact Ex|]. now apply IH.
Qed.

Lemma map_throwing_Normal {A B : Type} (f : A -> completion B) (l : list A) :
  Forall (fun x => exists r, f x = Normal r) l ->
  exists rows, map_throwing f l = Normal rows.
Proof.
  induction 1 as [|x l [r Hr] _ [rs IH]]; simpl.
  - now exists [].
  - rewrite Hr, IH. simpl. now exists (r :: rs).
Qed.

Lemma map_throwing_throws {A B : Type} (f : A -> completion B) (l : list A) :
  Exists (fun x => throws (f x)) l -> throws (map_throwing f l).
Proof.
  induction 1 as [x l [e He]|x l _ [e IH]]; simpl.
  - rewrite He. now exists e.
  - destruct (f x) as [r|e']; simpl; [|now exists e'].
    rewrite IH. now exists e.
Qed.

Lemma ethHint_not_Error (rate : option Z) (usdc : Z) :
  ethHint (useChainlinkUsdcToEthConverter rate) usdc <> Throw Error.
Proof.
  destruct rate as [rate|]; simpl; [|discriminate].
  unfold bigint_div. destruct (rate =? 0); simpl; discriminate.
Qed.

Lemma ethHint_Normal (rate : option Z) (usdc : Z) :
  rate <> Some 0 ->
  exists hint, ethHint (useChainlinkUsdcToEthConverter rate) usdc
               = Normal hint.
Proof.
  intros Hrate. destruct rate as [rate|]; simpl; [|now eexists].
  rewrite bigint_div_nonzero by congruence. simpl. now eexists.
Qed.

Lemma overviewValue_Normal (rate : option Z) (formatting : option string)
  (amount : option Z) :
  rate <> Some 0 ->
  exists v, overviewValue (useChainlinkUsdcToEthConverter rate) formatting
              amount = Normal v.
Proof.
  intros Hrate. unfold overviewValue.
  destruct amount as [a|]; [|now eexists].
  destruct (isString formatting "eth"); [now eexists|].
  destruct (isString formatting "usdc"); [|now eexists].
  destruct (ethHint_Normal rate a Hrate) as [hint ->]. simpl. now eexists.
Qed.

Lemma overviewRow_label convert (label : string) (formatting : option string)
  (amount : option Z) (row : Node) :
  overviewRow convert (label, formatting, amount) = Normal row ->
  rowLabels [row] = [label].
Proof.
  unfold overviewRow.
  destruct (overviewValue convert formatting amount) as [v|e]; simpl;
    [|discriminate].
  intros H. injection H as <-. reflexivity.
Qed.

Lemma rowLabels_cons (row : Node) (rows : list Node) :
  rowLabels (row :: rows) = rowLabels [row] ++ rowLabels rows.
Proof.
  unfold rowLabels. simpl. now rewrite app_nil_r.
Qed.

Lemma assetOverview_labels convert (entries : list _) :
  forall rows,
    map_throwing (overviewRow convert) entries = Normal rows ->
    rowLabels rows = List.map (fun e => fst (fst e)) entries.
Proof.
  intros rows H. apply map_throwing_Forall2 in H.
  induction H as [|[[label formatting] amount] row entries rows Hrow _ IH].
  - reflexivity.
  - rewrite rowLabels_cons, (overviewRow_label _ _ _ _ _ Hrow), IH.
    reflexivity.
Qed.

(** C2 as stated fails for the asset overview: with the treasury's ETH at
    5*10^18 and every other balance unresolved, the overview still has all
    its seven rows, the USDC row among them with its label and an empty
    value; only "Other contracts" leaves the rows out. *)
Lemma unresolved_overview_rows_keep_their_label :
  exists overview : list Node,
    Content ethOnlyChain None false 30 None None
    = Normal
        (Element "main" []
           [ Heading [Text "Asset overview"];
             Dl overview;
             Empty;
             Heading [Text "Other contracts"];
             Dl [Empty; Empty; Empty];
             Element "p" []
               [Text "More at"; Text " ";
                Element "a"
                  [("href", "https://tabs.wtf"); ("target", "_blank");
                   ("rel", "norefferer")]
                  [Text "tabs.wtf "; Text "↗"]] ])
    /\ rowLabels overview
       = ["ETH"; "stETH"; "USDC"; "rETH"; "wETH"; "wstETH"; "Nouns"]
    /\ In (Fragment [Dt [Text "ETH"];
                     Dd [FormattedEth (Some (5 * 10 ^ 18)) symbolOff]])
         overview
    /\ In (Fragment [Dt [Text "USDC"]; Dd [Empty]]) overview.
Proof.
  eexists. split; [reflexivity|]. split; [reflexivity|].
  split; simpl; tauto.
Qed.

Lemma assetOverview_rows (rate : option Z) (b : Balances)
  (rows : list Node) :
  assetOverview (useChainlinkUsdcToEthConverter rate) b = Normal rows ->
  exists usdc : Node,
    usdcCell (useChainlinkUsdcToEthConverter rate) (treasuryUsdc b) usdc
    /\ rows = [ rowOf "ETH" (ethCell (treasuryEth b));
                rowOf "stETH" (ethCell (treasurySteth b));
                rowOf "USDC" usdc;
                rowOf "rETH" (ethCell (treasuryReth b));
                rowOf "wETH" (ethCell (treasuryWeth b));
                rowOf "wstETH" (ethCell (treasuryWsteth b));
                rowOf "Nouns" (countCell (treasuryNouns b)) ].
Proof.
  unfold assetOverview, overviewEntries, usdcCell. intros H.
  destruct (treasuryUsdc b) as [a|].
  - destruct (ethHint (useChainlinkUsdcToEthConverter rate) a)
      as [hint|e] eqn:Hhint.
    + exists (Fragment [UsdcText a; Text " "; hint]).
      split; [exists hint; now split|].
      destruct (treasuryEth b), (treasurySteth b), (treasuryReth b),
        (treasuryWeth b), (treasuryWsteth b), (treasuryNouns b);
        simpl in H; rewrite Hhint in H; simpl in H;
        injection H as <-; reflexivity.
    + destruct (treasuryEth b), (treasurySteth b);
        simpl in H; rewrite Hhint in H; discriminate.
  - exists Empty. split; [reflexivity|].
    destruct (treasuryEth b), (treasurySteth b), (treasuryReth b),
      (treasuryWeth b), (treasuryWsteth b), (treasuryNouns b);
      simpl in H; injection H as <-; reflexivity.
Qed.

(** C2, as the code has it.  A balance that has not resolved shows no
    value, neither a zero nor an error, and one that has resolved shows
    one.  In the asset overview the row stays: whenever the overview
    renders, and it does unless the rate read is zero, it is the seven rows
    with their labels, each holding the value of its own balance: nothing
    for a balance that has not resolved, the amount for one that has.  So
    with the treasury's ETH resolved and nothing else, the overview is the
    seven labels with a value in the ETH row only.  Under "Other contracts"
    the row itself is left out: each of the three rows is there, with its
    label and its value, exactly when its balance has resolved. *)
Theorem unresolved_balance_shows_no_value :
  (forall (rate : option Z) (formatting : option string),
      overviewValue (useChainlinkUsdcToEthConverter rate) formatting None
      = Normal Empty)
  /\ (forall (rate : option Z) (formatting : option string) (amount : Z),
         overviewValue (useChainlinkUsdcToEthConverter rate) formatting
           (Some amount) <> Normal Empty)
  /\ (forall (rate : option Z) (b : Balances),
         rate <> Some 0 ->
         exists rows,
           assetOverview (useChainlinkUsdcToEthConverter rate) b
           = Normal rows)
  /\ (forall (rate : option Z) (b : Balances) (rows : list Node),
         assetOverview (useChainlinkUsdcToEthConverter rate) b = Normal rows ->
         rowLabels rows = overviewLabels)
  /\ (forall (address : option string) (name : string) content,
         contractRow None address name content = Empty)
  /\ (forall (c : Chain) (b : Balances),
         rowLabels (otherContracts c b)
         = labelIfResolved (tokenBuyerEth b) "Token Buyer"
             ++ labelIfResolved (daoProxyEth b) "DAO Proxy"
             ++ labelIfResolved (forkEscrowNouns b) "Fork Escrow")
  /\ (forall (rate : option Z) (b : Balances) (rows : list Node),
         assetOverview (useChainlinkUsdcToEthConverter rate) b = Normal rows ->
         exists usdc : Node,
           usdcCell (useChainlinkUsdcToEthConverter rate) (treasuryUsdc b)
             usdc
           /\ rows = [ rowOf "ETH" (ethCell (treasuryEth b));
                       rowOf "stETH" (ethCell (treasurySteth b));
                       rowOf "USDC" usdc;
                       rowOf "rETH" (ethCell (treasuryReth b));
                       rowOf "wETH" (ethCell (treasuryWeth b));
                       rowOf "wstETH" (ethCell (treasuryWsteth b));
                       rowOf "Nouns" (countCell (treasuryNouns b)) ])
  /\ (forall (rate : option Z) (b : Balances) (eth : Z),
         treasuryEth b = Some eth ->
         treasurySteth b = None -> treasuryUsdc b = None ->
         treasuryReth b = None -> treasuryWeth b = None ->
         treasuryWsteth b = None -> treasuryNouns b = None ->
         assetOverview (useChainlinkUsdcToEthConverter rate) b
         = Normal [ rowOf "ETH" (FormattedEth (Some eth) symbolOff);
                    rowOf "stETH" Empty;
                    rowOf "USDC" Empty;
                    rowOf "rETH" Empty;
                    rowOf "wETH" Empty;
                    rowOf "wstETH" Empty;
                    rowOf "Nouns" Empty ])
  /\ (forall (c : Chain) (b : Balances),
         otherContracts c b
         = [ ifResolved (tokenBuyerEth b)
               (fun v =>
                  Fragment
                    [ Dt [EtherscanLink (contractAddress c "token-buyer")
                            [Text "Token Buyer"]];
                      Dd [FormattedEth (Some v) symbolDefault; Text " ";
                          Small [Text "(swaps ETH → USDC)"]] ]);
             ifResolved (daoProxyEth b)
               (fun v =>
                  Fragment
                    [ Dt [EtherscanLink (contractAddress c "dao")
                            [Text "DAO Proxy"]];
                      Dd [FormattedEth (Some v) symbolDefault; Text " ";
                          Small [Text "(used for vote refunds)"]] ]);
             ifResolved (forkEscrowNouns b)
               (fun v =>
                  Fragment
                    [ Dt [EtherscanLink (contractAddress c "fork-escrow")
                            [Text "Fork Escrow"]];
                      Dd [NumberText v; Text " Nouns"] ]) ]).
Proof.
  split; [reflexivity|].
  split; [|split; [|split; [|split; [|split; [|split; [|split]]]]]].
  - intros rate formatting amount. unfold overviewValue.
    destruct (isString formatting "eth"); [discriminate|].
    destruct (isString formatting "usdc"); [|discriminate].
    destruct (ethHint (useChainlinkUsdcToEthConverter rate) amount); simpl;
      discriminate.
  - intros rate b Hrate. apply map_throwing_Normal.
    apply Forall_forall. intros [[label formatting] amount] _.
    unfold overviewRow.
    destruct (overviewValue_Normal rate formatting amount Hrate) as [v ->].
    simpl. now eexists.
  - intros rate b rows H. unfold assetOverview in H.
    now rewrite (assetOverview_labels _ _ _ H).
  - reflexivity.
  - intros c b. unfold otherContracts, contractRow.
    destruct (tokenBuyerEth b), (daoProxyEth b), (forkEscrowNouns b);
      reflexivity.
  - apply assetOverview_rows.
  - intros rate b eth Heth Hsteth Husdc Hreth Hweth Hwsteth Hnouns.
    unfold assetOverview, overviewEntries.
    rewrite Heth, Hsteth, Husdc, Hreth, Hweth, Hwsteth, Hnouns.
    reflexivity.
  - intros c b. unfold otherContracts, contractRow, ifResolved.
    destruct (tokenBuyerEth b), (daoProxyEth b), (forkEscrowNouns b);
      reflexivity.
Qed.

Lemma unresolved_balance_shows_no_value_witness :
  (exists rows : list Node,
      assetOverview (useChainlinkUsdcToEthConverter (Some 300000000000000))
        (useBalances ethOnlyChain) = Normal rows
      /\ rowLabels rows = overviewLabels
      /\ exists usdc : Node,
          usdcCell (useChainlinkUsdcToEthConverter (Some 300000000000000))
            (treasuryUsdc (useBalances ethOnlyChain)) usdc
          /\ rows
             = [ rowOf "ETH" (ethCell (treasuryEth (useBalances ethOnlyChain)));
                 rowOf "stETH"
                   (ethCell (treasurySteth (useBalances ethOnlyChain)));
                 rowOf "USDC" usdc;
                 rowOf "rETH"
                   (ethCell (treasuryReth (useBalances ethOnlyChain)));
                 rowOf "wETH"
                   (ethCell (treasuryWeth (useBalances ethOnlyChain)));
                 rowOf "wstETH"
                   (ethCell (treasuryWsteth (useBalances ethOnlyChain)));
                 rowOf "Nouns"
                   (countCell (treasuryNouns (useBalances ethOnlyChain))) ])
  /\ assetOverview (useChainlinkUsdcToEthConverter (Some 0))
       (useBalances ethOnlyChain)
     = Normal [ rowOf "ETH" (FormattedEth (Some (5 * 10 ^ 18)) symbolOff);
                rowOf "stETH" Empty;
                rowOf "USDC" Empty;
                rowOf "rETH" Empty;
                rowOf "wETH" Empty;
                rowOf "wstETH" Empty;
                rowOf "Nouns" Empty ].
Proof.
  destruct unresolved_balance_shows_no_value
    as [_ [_ [Hrenders [Hlabels [_ [_ [Hrows [Honly _]]]]]]]].
  split.
  - destruct (Hrenders (Some 300000000000000) (useBalances ethOnlyChain))
      as [rows Hok]; [discriminate|].
    exists rows. split; [exact Hok|].
    split; [exact (Hlabels _ _ _ Hok)|]. exact (Hrows _ _ _ Hok).
  - apply (Honly (Some 0) (useBalances ethOnlyChain) (5 * 10 ^ 18));
      reflexivity.
Defined.

Lemma deployedAsset_unhandled convert (asset : Asset) :
  ~ handled (currency asset) -> deployedAsset convert asset = Throw Error.
Proof.
  unfold handled, deployedAsset. intros H.
  destruct (String.eqb_spec (currency asset) "eth"); [tauto|].
  destruct (String.eqb_spec (currency asset) "usdc"); [tauto|].
  destruct (String.eqb_spec (currency asset) "nouns"); [tauto|].
  reflexivity.
Qed.

(** C8.  The switch of the assets-deployed list throws [new Error()] on a
    currency other than "eth", "usdc" and "nouns", and on those three it
    never does; an asset with such a currency makes the list, and the
    content that shows it, throw rather than render; an asset of a handled
    currency that has its amount or tokens renders. *)
Theorem unhandled_currency_throws :
  (forall (rate : option Z) (asset : Asset),
      ~ handled (currency asset) ->
      deployedAsset (useChainlinkUsdcToEthConverter rate) asset = Throw Error)
  /\ (forall (rate : option Z) (asset : Asset),
         handled (currency asset) ->
         deployedAsset (useChainlinkUsdcToEthConverter rate) asset
         <> Throw Error)
  /\ (forall (rate : option Z) (assets : list Asset),
         Exists (fun a => ~ handled (currency a)) assets ->
         throws (assetsDeployedList (useChainlinkUsdcToEthConverter rate)
                   (Some assets)))
  /\ (forall (c : Chain) (rate : option Z) (days : nat)
             (proceeds : option Z) (assets : list Asset),
         Exists (fun a => ~ handled (currency a)) assets ->
         throws (Content c rate true days proceeds (Some assets)))
  /\ (forall asset : Asset,
         handled (currency asset) ->
         (currency asset = "usdc" -> amount asset <> None) ->
         (currency asset = "nouns" -> tokens asset <> None) ->
         exists n,
           deployedAsset (useChainlinkUsdcToEthConverter None) asset
           = Normal n).
Proof.
  assert (Hlist : forall rate assets,
             Exists (fun a => ~ handled (currency a)) assets ->
             throws (assetsDeployedList (useChainlinkUsdcToEthConverter rate)
                       (Some assets))).
  { intros rate assets H. unfold assetsDeployedList.
    destruct (map_throwing_throws
                (deployedItem (useChainlinkUsdcToEthConverter rate)) assets)
      as [e He].
    - eapply Exists_impl; [|exact H]. intros a Ha. exists Error.
      unfold deployedItem. now rewrite (deployedAsset_unhandled _ _ Ha).
    - rewrite He. now exists e. }
  split; [|split; [|split; [exact Hlist|split]]].
  - intros rate asset. apply deployedAsset_unhandled.
  - intros rate asset Hh. unfold deployedAsset.
    destruct (String.eqb_spec (currency asset) "eth"); [discriminate|].
    destruct (String.eqb_spec (currency asset) "usdc").
    + destruct (amount asset) as [usdc|]; [|discriminate].
      pose proof (ethHint_not_Error rate usdc) as Hhint.
      destruct (ethHint (useChainlinkUsdcToEthConverter rate) usdc)
        as [hint|err]; simpl; [discriminate|congruence].
    + destruct (String.eqb_spec (currency asset) "nouns").
      * destruct (tokens asset); discriminate.
      * unfold handled in Hh. tauto.
  - intros c rate days proceeds assets H. unfold Content.
    destruct (assetOverview _ _) as [overview|e]; simpl; [|now exists e].
    unfold recentActivity.
    destruct (Hlist rate assets H) as [e ->]. simpl. now exists e.
  - intros asset Hh Husdc Hnouns. unfold deployedAsset.
    destruct (String.eqb_spec (currency asset) "eth"); [now eexists|].
    destruct (String.eqb_spec (currency asset) "usdc").
    + destruct (amount asset); [now eexists|]. now elim Husdc.
    + destruct (String.eqb_spec (currency asset) "nouns").
      * destruct (tokens asset); [now eexists|]. now elim Hnouns.
      * unfold handled in Hh. tauto.
Qed.

Lemma unhandled_currency_throws_witness :
  throws (assetsDeployedList
            (useChainlinkUsdcToEthConverter (Some 300000000000000))
            (Some [ mkAsset "eth" (Some 1) None;
                    mkAsset "dai" (Some 5) None ]))
  /\ deployedAsset (useChainlinkUsdcToEthConverter (Some 0))
       (mkAsset "usdc" (Some 5) None) <> Throw Error
  /\ deployedAsset (useChainlinkUsdcToEthConverter None)
       (mkAsset "dai" (Some 5) None) = Throw Error
  /\ throws (Content ethOnlyChain None true 30 None
               (Some [ mkAsset "dai" (Some 5) None ]))
  /\ exists n,
      deployedAsset (useChainlinkUsdcToEthConverter None)
        (mkAsset "nouns" None (Some [7])) = Normal n.
Proof.
  assert (Hdai : ~ handled "dai").
  { unfold handled. intros [H|[H|H]]; discriminate. }
  destruct unhandled_currency_throws
    as [Hunhandled [Hhandled [Hlist [Hcontent Hrenders]]]].
  split; [|split; [|split; [|split]]].
  - apply Hlist. apply Exists_cons_tl, Exists_cons_hd. exact Hdai.
  - apply Hhandled. unfold handled. simpl. tauto.
  - apply Hunhandled. exact Hdai.
  - apply Hcontent. apply Exists_cons_hd. exact Hdai.
  - apply Hrenders.
    + unfold handled. simpl. tauto.
    + discriminate.
    + discriminate.
Defined.

(** ** The members screen *)

Section MembersFacts.
Import Members.

Variable createUserDefaultComparator : Member -> Member -> Z.
Variable searchUsers : list Member -> code_units -> list Member.
Variable state : State.
Variable channelId : string.

(** What the spec says of the search: it returns members of the list it
    is given. *)
Hypothesis searchUsers_returns_members :
  forall users query u, In u (searchUsers users query) -> In u users.

Lemma annotate_id (m : Member) : id (annotate state m) = id m.
Proof.
  unfold annotate.
  destruct (String.eqb (id m) (id (selectMe state))); [reflexivity|].
  destruct (selectIsUserBlocked state (id m)); [reflexivity|].
  destruct (includes (selectStarredUserIds state) (id m)); reflexivity.
Qed.

Lemma filtered_short_query (query : code_units) :
  (List.length (trim query) <= 1)%nat ->
  filteredMembers createUserDefaultComparator searchUsers state channelId
    query
  = Shades.sort createUserDefaultComparator
      (List.map (annotate state) (selectChannelMembers state channelId)).
Proof.
  intros Hq. unfold filteredMembers.
  apply Nat.leb_le in Hq. now rewrite Hq.
Qed.

(** Every entry of the output is the annotation of a member. *)
Lemma filtered_annotated (query : code_units) (out : Member) :
  In out
    (filteredMembers createUserDefaultComparator searchUsers state
       channelId query) ->
  exists m,
    In m (selectChannelMembers state channelId) /\ out = annotate state m.
Proof.
  unfold filteredMembers. intros Hin.
  assert (Hmap : In out (List.map (annotate state)
                           (selectChannelMembers state channelId))).
  { destruct (List.length (trim query) <=? 1)%nat.
    - eapply Permutation_in; [apply sort_perm|exact Hin].
    - eapply searchUsers_returns_members. exact Hin. }
  apply in_map_iff in Hmap. destruct Hmap as [m [Hm Hin']].
  exists m. split; [exact Hin'|now symmetry].
Qed.

(** C5.  With a query of trimmed length at most 1 the output holds the
    annotation of every member exactly once, none added or dropped (it is
    a permutation of the annotated members, and its ids a permutation of
    the members' ids), in the order of the default comparator. *)
Theorem short_query_lists_every_member_sorted (query : code_units) :
  consistent createUserDefaultComparator ->
  (List.length (trim query) <= 1)%nat ->
  Permutation
    (filteredMembers createUserDefaultComparator searchUsers state
       channelId query)
    (List.map (annotate state) (selectChannelMembers state channelId))
  /\ Permutation
       (List.map id
          (filteredMembers createUserDefaultComparator searchUsers state
             channelId query))
       (List.map id (selectChannelMembers state channelId))
  /\ StronglySorted (inOrder createUserDefaultComparator)
       (filteredMembers createUserDefaultComparator searchUsers state
          channelId query).
Proof.
  intros Hc Hq. rewrite (filtered_short_query query Hq).
  split; [apply sort_perm|]. split; [|now apply sort_sorted].
  apply perm_trans
    with (List.map id (List.map (annotate state)
                         (selectChannelMembers state channelId))).
  - apply Permutation_map, sort_perm.
  - rewrite List.map_map.
    erewrite map_ext; [apply Permutation_refl|]. apply annotate_id.
Qed.

(** C6.  No entry of the output carries both flags.  The annotation
    leaves the star of a member the viewer has blocked as it found it; and
    for members that come without flags, as the roster has them, an
    output entry is never both blocked and starred: a starred entry is one
    the viewer has not blocked, a blocked entry one the viewer has. *)
Theorem blocked_entry_never_starred (query : code_units) :
  (forall m : Member,
      selectIsUserBlocked state (id m) = true ->
      isStarred (annotate state m) = isStarred m)
  /\ (Forall (fun m => isBlocked m = false /\ isStarred m = false)
        (selectChannelMembers state channelId) ->
      forall out : Member,
        In out
          (filteredMembers createUserDefaultComparator searchUsers state
             channelId query) ->
        ~ (isBlocked out = true /\ isStarred out = true)
        /\ (isStarred out = true ->
            selectIsUserBlocked state (id out) = false)
        /\ (isBlocked out = true ->
            selectIsUserBlocked state (id out) = true)).
Proof.
  split.
  - intros m Hb. unfold annotate.
    destruct (String.eqb (id m) (id (selectMe state))); [reflexivity|].
    now rewrite Hb.
  - intros Hflags out Hin.
    destruct (filtered_annotated query out Hin) as [m [Hm ->]].
    rewrite Forall_forall in Hflags. destruct (Hflags m Hm) as [Hb Hs].
    rewrite annotate_id. unfold annotate.
    destruct (String.eqb (id m) (id (selectMe state))); simpl.
    + rewrite Hb, Hs. repeat split; try discriminate. intros [H _].
      discriminate.
    + destruct (selectIsUserBlocked state (id m)) eqn:Eb; simpl.
      * rewrite Hs. repeat split; try discriminate. intros [_ H].
        discriminate.
      * destruct (includes (selectStarredUserIds state) (id m)); simpl;
          rewrite Hb; repeat split; try discriminate; intros [H _];
          discriminate.
Qed.

(** C7.  Whatever the query, an entry of the output with the viewer's id
    is a member of the roster with " (you)" appended to its display
    name. *)
Theorem own_entry_carries_you_suffix (query : code_units) (out : Member) :
  In out
    (filteredMembers createUserDefaultComparator searchUsers state
       channelId query) ->
  id out = id (selectMe state) ->
  exists m : Member,
    In m (selectChannelMembers state channelId)
    /\ id m = id out
    /\ displayName out = (displayName m ++ " (you)")%string
    /\ out = withYou m.
Proof.
  intros Hin Hme.
  destruct (filtered_annotated query out Hin) as [m [Hm ->]].
  rewrite annotate_id in Hme. exists m.
  split; [exact Hm|]. split; [now rewrite annotate_id|].
  unfold annotate. apply String.eqb_eq in Hme. rewrite Hme.
  split; reflexivity.
Qed.

End MembersFacts.

Lemma byDisplayName_consistent : consistent byDisplayName.
Proof.
  unfold consistent, byDisplayName. split.
  - intros a b.
    rewrite (String.compare_antisym (toLowerCase (Members.displayName a))).
    destruct (String.compare (toLowerCase (Members.displayName b))
                (toLowerCase (Members.displayName a))); simpl; lia.
  - intros a b c.
    destruct (String.compare (toLowerCase (Members.displayName a))
                (toLowerCase (Members.displayName b))) eqn:Eab;
      [| |lia];
      destruct (String.compare (toLowerCase (Members.displayName b))
                  (toLowerCase (Members.displayName c))) eqn:Ebc;
      try lia; intros _ _.
    + apply String.compare_eq_iff in Eab. rewrite Eab, Ebc. lia.
    + apply String.compare_eq_iff in Eab. rewrite Eab, Ebc. lia.
    + apply String.compare_eq_iff in Ebc. rewrite <- Ebc, Eab. lia.
    + apply String_as_OT.cmp_lt in Eab, Ebc.
      pose proof (String_as_OT.lt_trans _ _ _ Eab Ebc) as Hac.
      apply String_as_OT.cmp_lt in Hac. unfold String_as_OT.cmp in Hac.
      rewrite Hac. lia.
Qed.

Lemma searchByName_returns_members (users : list Members.Member)
  (query : code_units) (u : Members.Member) :
  In u (searchByName users query) -> In u users.
Proof.
  unfold searchByName. intros H. now apply filter_In in H.
Qed.

Lemma short_query_lists_every_member_sorted_witness :
  Permutation
    (Members.filteredMembers byDisplayName searchByName aliceState "general"
       [32; 98; 9]%N)
    (List.map (Members.annotate aliceState)
       (Members.selectChannelMembers aliceState "general"))
  /\ Permutation
       (List.map Members.id
          (Members.filteredMembers byDisplayName searchByName aliceState
             "general" [32; 98; 9]%N))
       (List.map Members.id
          (Members.selectChannelMembers aliceState "general"))
  /\ StronglySorted (inOrder byDisplayName)
       (Members.filteredMembers byDisplayName searchByName aliceState
          "general" [32; 98; 9]%N).
Proof.
  apply (short_query_lists_every_member_sorted byDisplayName searchByName
           aliceState "general" [32; 98; 9]%N).
  - exact byDisplayName_consistent.
  - simpl. lia.
Defined.

Lemma blocked_entry_never_starred_witness :
  Members.isStarred (Members.annotate aliceState bob) = Members.isStarred bob
  /\ ~ (Members.isBlocked (Members.asBlocked bob) = true
        /\ Members.isStarred (Members.asBlocked bob) = true).
Proof.
  destruct (blocked_entry_never_starred byDisplayName searchByName
              aliceState "general" searchByName_returns_members
              (unitsOf "ob")) as [Hstar Hflags].
  split.
  - apply Hstar. reflexivity.
  - apply Hflags.
    + repeat constructor.
    + simpl. left. reflexivity.
Defined.

Lemma own_entry_carries_you_suffix_witness :
  exists m : Members.Member,
    In m (Members.selectChannelMembers aliceState "general")
    /\ Members.id m = "1"
    /\ Members.displayName (Members.withYou alice)
       = (Members.displayName m ++ " (you)")%string
    /\ Members.withYou alice = Members.withYou m.
Proof.
  apply (own_entry_carries_you_suffix byDisplayName searchByName aliceState
           "general" searchByName_returns_members (unitsOf "ice")
           (Members.withYou alice)).
  - simpl. left. reflexivity.
  - reflexivity.
Defined.

(** ** More on the merge of the assets deployed *)

Lemma forallb_summable_false (l : list Asset) :
  forallb summable l = false <->
  Exists (fun a => ethFamily a = true /\ amount a = None) l.
Proof.
  induction l as [|a l IH]; simpl.
  - split; [discriminate|]. intros H. inversion H.
  - unfold summable at 1. split.
    + destruct (ethFamily a) eqn:Ea; [destruct (amount a) eqn:Hv|]; simpl;
        intros H.
      * apply Exists_cons_tl. now apply IH.
      * apply Exists_cons_hd. now split.
      * apply Exists_cons_tl. now apply IH.
    + intros H. inversion H as [? ? [Ea Hv]|? ? Hl]; subst.
      * now rewrite Ea, Hv.
      * apply IH in Hl. rewrite Hl. apply andb_false_r.
Qed.

Lemma filter_ethFamily_others (others : list Asset) :
  Forall (fun a => ethFamily a = false) others ->
  filter ethFamily others = [].
Proof.
  induction 1 as [|a l Ea _ IH]; simpl; [reflexivity|]. now rewrite Ea.
Qed.

Lemma filter_not_ethFamily_others (others : list Asset) :
  Forall (fun a => ethFamily a = false) others ->
  filter (fun a => negb (ethFamily a)) others = others.
Proof.
  induction 1 as [|a l Ea _ IH]; simpl; [reflexivity|].
  rewrite Ea. simpl. now rewrite IH.
Qed.

(** X1.  The merge fails in one way only: it throws exactly when some
    eth-family asset has no amount, and what it throws is a [TypeError].
    Assets of other currencies never make it fail, amount or not. *)
Theorem merge_throws_only_on_eth_without_amount (requested : list Asset) :
  (throws (mergeAssets requested) <->
   Exists (fun a => ethFamily a = true /\ amount a = None) requested)
  /\ (forall e, mergeAssets requested = Throw e -> e = TypeError)
  /\ (Forall (fun a => ethFamily a = false) requested ->
      mergeAssets requested = Normal requested).
Proof.
  rewrite mergeAssets_merged. split; [|split].
  - rewrite <- forallb_summable_false.
    destruct (forallb summable requested); split.
    + intros [e He]. discriminate.
    + discriminate.
    + reflexivity.
    + intros _. now exists TypeError.
  - intros e. destruct (forallb summable requested); intros H;
      [discriminate|]. now injection H.
  - intros Hall.
    assert (Hs : forallb summable requested = true).
    { apply forallb_forall. intros a Ha. rewrite Forall_forall in Hall.
      unfold summable. now rewrite (Hall a Ha). }
    rewrite Hs. unfold merged, totalAfter.
    now rewrite (filter_ethFamily_others _ Hall),
      (filter_not_ethFamily_others _ Hall).
Qed.

Lemma merge_throws_only_on_eth_without_amount_witness :
  mergeAssets [ mkAsset "usdc" None None; mkAsset "nouns" None None ]
  = Normal [ mkAsset "usdc" None None; mkAsset "nouns" None None ]
  /\ throws (mergeAssets [ mkAsset "eth" (Some 1) None;
                           mkAsset "weth" None None ])
  /\ TypeError = TypeError.
Proof.
  split; [|split].
  - apply (proj2 (proj2 (merge_throws_only_on_eth_without_amount
                           [ mkAsset "usdc" None None;
                             mkAsset "nouns" None None ]))).
    repeat constructor.
  - apply (proj1 (merge_throws_only_on_eth_without_amount
                    [ mkAsset "eth" (Some 1) None;
                      mkAsset "weth" None None ])).
    apply Exists_cons_tl, Exists_cons_hd. split; reflexivity.
  - apply (proj1 (proj2 (merge_throws_only_on_eth_without_amount
                           [ mkAsset "eth" (Some 1) None;
                             mkAsset "weth" None None ]))).
    reflexivity.
Defined.

Lemma summable_merged (l : list Asset) : forallb summable (merged l) = true.
Proof.
  unfold merged. pose proof (merged_others l) as Hothers.
  assert (Ho : forallb summable (filter (fun a => negb (ethFamily a)) l)
               = true).
  { apply forallb_forall. intros a Ha. rewrite Forall_forall in Hothers.
    unfold summable. now rewrite (Hothers a Ha). }
  destruct (totalAfter None l); simpl; [|exact Ho].
  now rewrite Ho.
Qed.

Lemma merged_bucketed (total : option Z) (others : list Asset) :
  Forall (fun a => ethFamily a = false) others ->
  merged (bucketed total others) = bucketed total others.
Proof.
  intros Hothers. unfold merged, totalAfter, ethAmounts.
  destruct total as [t|]; simpl.
  - rewrite (filter_ethFamily_others _ Hothers),
      (filter_not_ethFamily_others _ Hothers). simpl.
    unfold ethBucket. do 3 f_equal. lia.
  - now rewrite (filter_ethFamily_others _ Hothers),
      (filter_not_ethFamily_others _ Hothers).
Qed.

(** X2.  Merging is idempotent: a list the merge has produced merges
    into itself. *)
Theorem merge_idempotent (requested out : list Asset) :
  mergeAssets requested = Normal out -> mergeAssets out = Normal out.
Proof.
  intros H. apply mergeAssets_Normal in H. destruct H as [_ ->].
  rewrite mergeAssets_merged, summable_merged. f_equal.
  unfold merged at 2. apply merged_bucketed, merged_others.
Qed.

Lemma merge_idempotent_witness :
  mergeAssets [ mkAsset "eth" (Some 3) None; mkAsset "usdc" (Some 4) None ]
  = Normal [ mkAsset "eth" (Some 3) None; mkAsset "usdc" (Some 4) None ].
Proof.
  apply (merge_idempotent
           [ mkAsset "usdc" (Some 4) None; mkAsset "weth" (Some 1) None;
             mkAsset "eth" (Some 2) None ]).
  reflexivity.
Defined.

Lemma sumZ_Permutation (l l' : list Z) :
  Permutation l l' -> sumZ l = sumZ l'.
Proof.
  induction 1; simpl; lia.
Qed.

Lemma Permutation_filter {A : Type} (f : A -> bool) (l l' : list A) :
  Permutation l l' -> Permutation (filter f l) (filter f l').
Proof.
  induction 1 as [|x l l' _ IH|x y l|l l' l'' _ IH1 _ IH2]; simpl.
  - apply perm_nil.
  - destruct (f x); [now apply perm_skip|exact IH].
  - destruct (f x), (f y); try apply Permutation_refl. apply perm_swap.
  - now apply perm_trans with (filter f l').
Qed.

Lemma forallb_Permutation {A : Type} (f : A -> bool) (l l' : list A) :
  Permutation l l' -> forallb f l = forallb f l'.
Proof.
  induction 1 as [|x l l' _ IH|x y l|l l' l'' _ IH1 _ IH2]; simpl.
  - reflexivity.
  - now rewrite IH.
  - destruct (f x), (f y); reflexivity.
  - now rewrite IH1.
Qed.

Lemma totalAfter_Permutation (l l' : list Asset) :
  Permutation l l' -> totalAfter None l = totalAfter None l'.
Proof.
  intros Hp. unfold totalAfter, ethAmounts.
  pose proof (Permutation_filter ethFamily l l' Hp) as Hf.
  pose proof (sumZ_Permutation _ _
                (Permutation_map (fun a => nullish (amount a) 0) Hf)) as Hs.
  destruct (filter ethFamily l) as [|a r] eqn:El.
  - apply Permutation_nil in Hf. now rewrite Hf.
  - destruct (filter ethFamily l') as [|a' r'] eqn:El'.
    + apply Permutation_sym, Permutation_nil in Hf. discriminate.
    + now rewrite Hs.
Qed.

(** X3.  The order of the requested assets does not change what is
    deployed: a reordered input merges too, into the same "eth" bucket and
    the same entries, up to their order. *)
Theorem merge_order_independent (requested requested' out : list Asset) :
  Permutation requested requested' ->
  mergeAssets requested = Normal out ->
  exists out',
    mergeAssets requested' = Normal out'
    /\ filter isEth out' = filter isEth out
    /\ Permutation out out'.
Proof.
  intros Hp H. apply mergeAssets_Normal in H. destruct H as [Hs ->].
  exists (merged requested'). split; [|split].
  - rewrite mergeAssets_merged.
    now rewrite <- (forallb_Permutation summable _ _ Hp), Hs.
  - unfold merged. rewrite <- (totalAfter_Permutation _ _ Hp).
    destruct (totalAfter None requested); simpl;
      now rewrite !(filter_isEth_none _ (merged_others _)).
  - unfold merged. rewrite <- (totalAfter_Permutation _ _ Hp).
    pose proof (Permutation_filter (fun a => negb (ethFamily a)) _ _ Hp).
    destruct (totalAfter None requested); simpl;
      [now apply perm_skip|assumption].
Qed.

Lemma merge_order_independent_witness :
  exists out',
    mergeAssets [ mkAsset "weth" (Some 1) None; mkAsset "usdc" (Some 4) None;
                  mkAsset "eth" (Some 2) None ] = Normal out'
    /\ filter isEth out' = filter isEth [ mkAsset "eth" (Some 3) None;
                                          mkAsset "usdc" (Some 4) None ]
    /\ Permutation [ mkAsset "eth" (Some 3) None;
                     mkAsset "usdc" (Some 4) None ] out'.
Proof.
  apply (merge_order_independent
           [ mkAsset "usdc" (Some 4) None; mkAsset "weth" (Some 1) None;
             mkAsset "eth" (Some 2) None ]).
  - apply perm_swap.
  - reflexivity.
Defined.

(** ** More on the USDC to ETH conversion *)

(** X4.  With a positive rate the conversion of an amount that is not
    negative succeeds, is not negative, is the exact quotient rounded down
    (off by less than one wei), and grows with the amount. *)
Theorem conversion_rounds_down_and_is_monotone (R : Z)
  (convert : Z -> completion Z) :
  useChainlinkUsdcToEthConverter (Some R) = Some convert ->
  0 < R ->
  forall A A' : Z,
    0 <= A <= A' ->
    exists eth eth' : Z,
      convert A = Normal eth
      /\ convert A' = Normal eth'
      /\ 0 <= eth <= eth'
      /\ eth * R <= A * 10 ^ 23 < (eth + 1) * R.
Proof.
  intros Hc HR A A' [HA HA']. injection Hc as <-.
  rewrite !bigint_div_nonzero by lia.
  exists (Z.quot (A * 10 ^ 23) R), (Z.quot (A' * 10 ^ 23) R).
  split; [reflexivity|]. split; [reflexivity|].
  assert (H23 : 0 < 10 ^ 23) by (now apply Z.pow_pos_nonneg).
  rewrite !Z.quot_div_nonneg by nia.
  split; [split|].
  - apply Z.div_pos; nia.
  - apply Z.div_le_mono; nia.
  - pose proof (Z.mul_div_le (A * 10 ^ 23) R HR).
    pose proof (Z.mul_succ_div_gt (A * 10 ^ 23) R HR). nia.
Qed.

Lemma conversion_rounds_down_and_is_monotone_witness :
  exists eth eth' : Z,
    bigint_div (1000000 * 10 ^ 23) 300000000000000 = Normal eth
    /\ bigint_div (2500000 * 10 ^ 23) 300000000000000 = Normal eth'
    /\ 0 <= eth <= eth'
    /\ eth * 300000000000000 <= 1000000 * 10 ^ 23
       < (eth + 1) * 300000000000000.
Proof.
  apply (conversion_rounds_down_and_is_monotone 300000000000000
           (fun usdc => bigint_div (usdc * 10 ^ 23) 300000000000000)
           eq_refl); lia.
Defined.

(** X5.  The conversion is odd in the amount and in the rate: negating
    either negates the result, since the division truncates toward zero. *)
Theorem conversion_is_odd (R A : Z) (convert convert' : Z -> completion Z) :
  useChainlinkUsdcToEthConverter (Some R) = Some convert ->
  useChainlinkUsdcToEthConverter (Some (- R)) = Some convert' ->
  R <> 0 ->
  exists eth : Z,
    convert A = Normal eth
    /\ convert (- A) = Normal (- eth)
    /\ convert' A = Normal (- eth).
Proof.
  intros Hc Hc' HR. injection Hc as <-. injection Hc' as <-.
  rewrite !bigint_div_nonzero by lia.
  exists (Z.quot (A * 10 ^ 23) R). split; [reflexivity|]. split; f_equal.
  - rewrite Z.mul_opp_l. now apply Z.quot_opp_l.
  - now apply Z.quot_opp_r.
Qed.

Lemma conversion_is_odd_witness :
  exists eth : Z,
    bigint_div (7 * 10 ^ 23) 3 = Normal eth
    /\ bigint_div (- 7 * 10 ^ 23) 3 = Normal (- eth)
    /\ bigint_div (7 * 10 ^ 23) (- 3) = Normal (- eth).
Proof.
  apply (conversion_is_odd 3 7
           (fun usdc => bigint_div (usdc * 10 ^ 23) 3)
           (fun usdc => bigint_div (usdc * 10 ^ 23) (- 3))
           eq_refl eq_refl).
  discriminate.
Defined.

(** ** More on the auction proceeds *)

Lemma sumZ_app (l l' : list Z) : sumZ (l ++ l') = sumZ l + sumZ l'.
Proof.
  induction l as [|x l IH]; [reflexivity|].
  change (x + sumZ (l ++ l') = x + sumZ l + sumZ l'). lia.
Qed.

(** X6.  The proceeds do not depend on the order in which the auctions
    come back, add up over a response taken in two parts, and are not
    negative when no amount is. *)
Theorem proceeds_order_independent_and_additive :
  (forall auctions auctions' : list AuctionResult,
      Permutation auctions auctions' ->
      sumProceeds auctions = sumProceeds auctions')
  /\ (forall auctions auctions' : list AuctionResult,
         sumProceeds (auctions ++ auctions')
         = sumProceeds auctions + sumProceeds auctions')
  /\ (forall auctions : list AuctionResult,
         Forall (fun a => 0 <= auction_amount a) auctions ->
         0 <= sumProceeds auctions).
Proof.
  split; [|split].
  - intros auctions auctions' Hp. rewrite !sumProceeds_sum.
    apply sumZ_Permutation. now apply Permutation_map.
  - intros auctions auctions'. rewrite !sumProceeds_sum, List.map_app.
    apply sumZ_app.
  - intros auctions Hall. rewrite sumProceeds_sum.
    induction Hall as [|a l Ha _ IH]; [simpl; lia|].
    change (0 <= auction_amount a + sumZ (List.map auction_amount l)). lia.
Qed.

Lemma proceeds_order_independent_and_additive_witness :
  sumProceeds [mkAuctionResult 5; mkAuctionResult 7]
  = sumProceeds [mkAuctionResult 7; mkAuctionResult 5]
  /\ 0 <= sumProceeds [mkAuctionResult 5; mkAuctionResult 7].
Proof.
  destruct proceeds_order_independent_and_additive as [Hperm [_ Hpos]].
  split.
  - apply Hperm. apply perm_swap.
  - apply Hpos. repeat constructor; simpl; lia.
Defined.

(** ** More on the rendering *)

Lemma assetOverview_Normal (rate : option Z) (b : Balances) :
  rate <> Some 0 ->
  exists rows,
    assetOverview (useChainlinkUsdcToEthConverter rate) b = Normal rows.
Proof.
  intros Hrate. apply map_throwing_Normal.
  apply Forall_forall. intros [[label formatting] amount] _.
  unfold overviewRow.
  destruct (overviewValue_Normal rate formatting amount Hrate) as [v ->].
  simpl. now eexists.
Qed.

(** X7.  With the [treasury-activity] flag off the dialog renders whenever
    the rate is not zero, and what it renders does not depend on the
    window, the proceeds or the assets deployed: an asset with a currency
    the list cannot show does no harm. *)
Theorem flag_off_ignores_activity (c : Chain) (rate : option Z)
  (days days' : nat) (proceeds proceeds' : option Z)
  (assets assets' : option (list Asset)) :
  rate <> Some 0 ->
  exists main : Node,
    Content c rate false days proceeds assets = Normal main
    /\ Content c rate false days' proceeds' assets' = Normal main.
Proof.
  intros Hrate. unfold Content.
  destruct (assetOverview_Normal rate (useBalances c) Hrate) as [rows ->].
  simpl. eexists. split; reflexivity.
Qed.

Lemma flag_off_ignores_activity_witness :
  exists main : Node,
    Content ethOnlyChain None false 30 None
      (Some [ mkAsset "dai" (Some 5) None ]) = Normal main
    /\ Content ethOnlyChain None false 7 (Some 12) None = Normal main.
Proof.
  apply (flag_off_ignores_activity ethOnlyChain None 30 7 None (Some 12)
           (Some [ mkAsset "dai" (Some 5) None ]) None).
  discriminate.
Defined.

(** X8.  A rate of zero breaks the dialog as soon as the treasury's USDC
    balance has resolved: the division by the rate throws a [RangeError]
    while the overview renders, whatever the rest.  Until then, with the
    flag off, the dialog still renders. *)
Theorem zero_rate_breaks_the_overview (c : Chain) (flag : bool) (days : nat)
  (proceeds : option Z) (assets : option (list Asset)) :
  (forall usdc : Z,
      treasuryUsdc (useBalances c) = Some usdc ->
      Content c (Some 0) flag days proceeds assets = Throw RangeError)
  /\ (treasuryUsdc (useBalances c) = None ->
      exists main : Node,
        Content c (Some 0) false days proceeds assets = Normal main).
Proof.
  split.
  - intros usdc Husdc. unfold Content, assetOverview, overviewEntries.
    rewrite Husdc.
    destruct (treasuryEth (useBalances c)),
      (treasurySteth (useBalances c)); reflexivity.
  - intros Husdc. unfold Content, assetOverview, overviewEntries.
    rewrite Husdc.
    destruct (treasuryEth (useBalances c)),
      (treasurySteth (useBalances c)), (treasuryReth (useBalances c)),
      (treasuryWeth (useBalances c)), (treasuryWsteth (useBalances c)),
      (treasuryNouns (useBalances c)); simpl; eexists; reflexivity.
Qed.

Lemma zero_rate_breaks_the_overview_witness :
  Content (mkChain (fun name => Some name) (fun _ => None)
             (fun _ _ => Some 2000000))
    (Some 0) true 30 None None = Throw RangeError
  /\ exists main : Node,
      Content ethOnlyChain (Some 0) false 30 None None = Normal main.
Proof.
  split.
  - apply (proj1 (zero_rate_breaks_the_overview
                    (mkChain (fun name => Some name) (fun _ => None)
                       (fun _ _ => Some 2000000)) true 30 None None)
             2000000).
    reflexivity.
  - apply (proj2 (zero_rate_breaks_the_overview ethOnlyChain true 30 None
                    None)).
    reflexivity.
Defined.





(** ** More on the members screen *)

Lemma length_append (s t : string) :
  String.length (s ++ t) = (String.length s + String.length t)%nat.
Proof.
  induction s as [|c s IH]; simpl; [reflexivity|]. now rewrite IH.
Qed.

Lemma append_changes (s t : string) : t <> ""%string -> (s ++ t)%string <> s.
Proof.
  intros Ht H. apply (f_equal String.length) in H.
  rewrite length_append in H.
  destruct t; [contradiction|]. simpl in H. lia.
Qed.

(** X10.  The flags say exactly what the annotation checked, on a member
    that comes without them: blocked, when the member is not the viewer
    and the viewer has blocked them; starred, when the member is not the
    viewer, is not blocked and is among the starred.  The viewer's own
    entry gets neither, even when their id is blocked or starred. *)
Theorem annotation_flags (state : Members.State) (m : Members.Member) :
  Members.isBlocked m = false ->
  Members.isStarred m = false ->
  let self :=
    String.eqb (Members.id m) (Members.id (Members.selectMe state)) in
  let blocked := Members.selectIsUserBlocked state (Members.id m) in
  let starred :=
    Members.includes (Members.selectStarredUserIds state) (Members.id m) in
  Members.isBlocked (Members.annotate state m) = negb self && blocked
  /\ Members.isStarred (Members.annotate state m)
     = negb self && negb blocked && starred.
Proof.
  intros Hb Hs. cbv zeta. unfold Members.annotate.
  destruct (String.eqb (Members.id m) (Members.id (Members.selectMe state)));
    simpl; [now rewrite Hb, Hs|].
  destruct (Members.selectIsUserBlocked state (Members.id m)); simpl;
    [now rewrite Hs|].
  destruct (Members.includes (Members.selectStarredUserIds state)
              (Members.id m)); simpl; now rewrite ?Hb, ?Hs.
Qed.

Lemma annotation_flags_witness :
  Members.isBlocked (Members.annotate aliceState bob) = true
  /\ Members.isStarred (Members.annotate aliceState bob) = false.
Proof.
  apply (annotation_flags aliceState bob); reflexivity.
Defined.

(** X11.  The annotation renames the viewer's own entry and no other, and
    leaves the id, the wallet address, the ENS name, the picture and the
    status of every member alone. *)
Theorem annotation_renames_only_the_viewer (state : Members.State)
  (m : Members.Member) :
  (Members.displayName (Members.annotate state m) <> Members.displayName m
   <-> Members.id m = Members.id (Members.selectMe state))
  /\ Members.id (Members.annotate state m) = Members.id m
  /\ Members.walletAddress (Members.annotate state m)
     = Members.walletAddress m
  /\ Members.ensName (Members.annotate state m) = Members.ensName m
  /\ Members.profilePicture (Members.annotate state m)
     = Members.profilePicture m
  /\ Members.onlineStatus (Members.annotate state m)
     = Members.onlineStatus m.
Proof.
  unfold Members.annotate.
  destruct (String.eqb_spec (Members.id m)
              (Members.id (Members.selectMe state))) as [Hme|Hme].
  - simpl. split; [|repeat split]. split; [intros _; exact Hme|].
    intros _. apply append_changes. discriminate.
  - assert (Hsame : forall name : string,
               name <> name <-> Members.id m
                                = Members.id (Members.selectMe state)).
    { intros name. split; [intros H; now elim H|contradiction]. }
    destruct (Members.selectIsUserBlocked state (Members.id m));
      [|destruct (Members.includes (Members.selectStarredUserIds state)
                    (Members.id m))];
      simpl; (split; [apply Hsame|repeat split]).
Qed.

Lemma annotation_renames_only_the_viewer_witness :
  Members.displayName (Members.annotate aliceState alice)
  <> Members.displayName alice.
Proof.
  apply (proj1 (annotation_renames_only_the_viewer aliceState alice)).
  reflexivity.
Defined.

Import Properties.

Lemma trimStart_noLeadingSpace (s : code_units) :
  noLeadingSpace (trimStart s).
Proof.
  induction s as [|c s IH]; simpl; [exact I|].
  destruct (isWhiteSpace c) eqn:Ec; [exact IH|exact Ec].
Qed.

Lemma trimStart_fixed (s : code_units) :
  noLeadingSpace s -> trimStart s = s.
Proof.
  destruct s as [|c s]; simpl; [reflexivity|]. now intros ->.
Qed.

Lemma trimStart_suffix (s : code_units) :
  exists spaces, s = spaces ++ trimStart s.
Proof.
  induction s as [|c s [spaces IH]]; simpl.
  - now exists [].
  - destruct (isWhiteSpace c).
    + exists (c :: spaces). simpl. now rewrite <- IH.
    + now exists [].
Qed.

Lemma trimStart_spaces (s : code_units) :
  Forall (fun c => isWhiteSpace c = true) s -> trimStart s = [].
Proof.
  induction 1 as [|c s Hc _ IH]; simpl; [reflexivity|]. now rewrite Hc.
Qed.

Lemma trimEnd_noTrailingSpace (s : code_units) :
  noLeadingSpace (rev (trimEnd s)).
Proof.
  unfold trimEnd. rewrite rev_involutive. apply trimStart_noLeadingSpace.
Qed.

Lemma trimEnd_fixed (s : code_units) :
  noLeadingSpace (rev s) -> trimEnd s = s.
Proof.
  intros H. unfold trimEnd. rewrite (trimStart_fixed _ H).
  apply rev_involutive.
Qed.

Lemma trimEnd_noLeadingSpace (s : code_units) :
  noLeadingSpace s -> noLeadingSpace (trimEnd s).
Proof.
  intros Hs. unfold trimEnd.
  destruct (trimStart_suffix (rev s)) as [spaces Hsplit].
  apply (f_equal (@rev N)) in Hsplit.
  rewrite rev_involutive, rev_app_distr in Hsplit.
  destruct (rev (trimStart (rev s))) as [|c kept]; [exact I|].
  rewrite Hsplit in Hs. exact Hs.
Qed.

Lemma trim_fixed (s : code_units) :
  noLeadingSpace s -> noLeadingSpace (rev s) -> trim s = s.
Proof.
  intros Hfront Hback. unfold trim.
  rewrite (trimStart_fixed _ Hfront). now apply trimEnd_fixed.
Qed.

Lemma trim_idempotent (s : code_units) : trim (trim s) = trim s.
Proof.
  apply trim_fixed.
  - unfold trim. apply trimEnd_noLeadingSpace, trimStart_noLeadingSpace.
  - unfold trim. apply trimEnd_noTrailingSpace.
Qed.

(** X12.  White space around the query does not count: the screen shows
    for a query what it shows for the trimmed query, and for a query of
    white space only, as for the empty query, every member in the default
    order.  The search gets the query trimmed, with no white space at
    either end. *)
Theorem surrounding_white_space_is_ignored
  (createUserDefaultComparator : Members.Member -> Members.Member -> Z)
  (searchUsers : list Members.Member -> code_units -> list Members.Member)
  (state : Members.State) (channelId : string) (query : code_units) :
  Members.filteredMembers createUserDefaultComparator searchUsers state
    channelId (trim query)
  = Members.filteredMembers createUserDefaultComparator searchUsers state
      channelId query
  /\ (Forall (fun c => isWhiteSpace c = true) query ->
      Members.filteredMembers createUserDefaultComparator searchUsers state
        channelId query
      = Members.filteredMembers createUserDefaultComparator searchUsers
          state channelId [])
  /\ noLeadingSpace (trim query)
  /\ noLeadingSpace (rev (trim query)).
Proof.
  split; [|split; [|split]].
  - unfold Members.filteredMembers. now rewrite trim_idempotent.
  - intros Hspaces. unfold Members.filteredMembers, trim.
    now rewrite (trimStart_spaces _ Hspaces).
  - unfold trim. apply trimEnd_noLeadingSpace, trimStart_noLeadingSpace.
  - unfold trim. apply trimEnd_noTrailingSpace.
Qed.

Lemma surrounding_white_space_is_ignored_witness :
  Members.filteredMembers byDisplayName searchByName aliceState "general"
    [32; 9; 160; 10]%N
  = Members.filteredMembers byDisplayName searchByName aliceState "general"
      [].
Proof.
  apply (proj1 (proj2 (surrounding_white_space_is_ignored byDisplayName
                         searchByName aliceState "general"
                         [32; 9; 160; 10]%N))).
  repeat constructor.
Defined.

(** ** The avatar stack *)

Section StackFacts.
Import Avatar.

Variable reverse : list string -> list string.
Hypothesis reverse_rev : forall l, reverse l = rev l.

Lemma mapi_from_urls (borderRadius bg : nullable string) (shrink : Z)
  (l : list string) :
  forall i : nat,
    let avatars :=
      mapi_from (fun url i =>
                   mkStackedAvatar url url borderRadius bg i shrink
                     (negb (i =? 0)%nat)) i l in
    List.map url avatars = l
    /\ List.map key avatars = l
    /\ List.map offsetSteps avatars = seq i (List.length l)
    /\ List.map boxShadow avatars = List.map shadowAt (seq i (List.length l))
    /\ Forall (fun a => stackBorderRadius a = borderRadius
                        /\ background a = bg /\ shrinkSteps a = shrink)
         avatars.
Proof.
  induction l as [|u l IH]; intros i; simpl.
  - repeat split. constructor.
  - destruct (IH (S i)) as [Hu [Hk [Ho [Hb Hf]]]].
    rewrite Hu, Hk, Ho, Hb. repeat split. constructor; [|exact Hf].
    repeat split.
Qed.

Lemma slice0_firstn {A : Type} (l : list A) (end_ : Z) :
  0 <= end_ ->
  slice0 l end_ = firstn (Z.to_nat end_) l.
Proof.
  intros Hend. unfold slice0.
  destruct (Z.ltb_spec end_ 0) as [H|_]; [lia|].
  destruct (Z.le_ge_cases end_ (Z.of_nat (List.length l))) as [Hle|Hge].
  - now rewrite Z.min_l.
  - rewrite Z.min_r by assumption. rewrite Nat2Z.id.
    rewrite firstn_all. symmetry. apply firstn_all2. lia.
Qed.

(** X13.  For a count that is not negative the stack holds the first
    [count] urls, or all of them when there are fewer, in reverse order:
    the first url is drawn last, on top.  The avatars are keyed by their
    url, stepped 0, 1, 2, ... from the corner, and every one but the first
    drawn has the box shadow; each gets the border radius and the
    background of the stack. *)
Theorem stack_shows_the_first_urls_reversed (urls : list string)
  (maxCount : Z) (borderRadius bg : nullable string) :
  0 <= maxCount ->
  let shown := Nat.min (List.length urls) (Z.to_nat maxCount) in
  let avatars := AvatarStack reverse (Some urls) (Some maxCount)
                   borderRadius bg in
  List.map url avatars = rev (firstn shown urls)
  /\ List.map key avatars = List.map url avatars
  /\ List.length avatars = shown
  /\ List.map offsetSteps avatars = seq 0 shown
  /\ List.map boxShadow avatars = List.map shadowAt (seq 0 shown)
  /\ Forall (fun a => stackBorderRadius a = borderRadius
                      /\ background a = bg
                      /\ shrinkSteps a = Z.of_nat shown - 1) avatars.
Proof.
  intros Hmax. cbv zeta. unfold AvatarStack, mapi. cbn [nullish].
  set (count := Z.min (Z.of_nat (List.length urls)) maxCount).
  assert (Hcount : 0 <= count) by (unfold count; lia).
  rewrite reverse_rev, (slice0_firstn urls count Hcount).
  assert (Hshown : firstn (Z.to_nat count) urls
                   = firstn (Nat.min (List.length urls) (Z.to_nat maxCount))
                       urls).
  { destruct (Nat.le_ge_cases (List.length urls) (Z.to_nat maxCount)).
    - rewrite Nat.min_l by assumption. rewrite firstn_all.
      apply firstn_all2. unfold count. lia.
    - rewrite Nat.min_r by assumption. f_equal. unfold count. lia. }
  rewrite Hshown.
  assert (Hlen : List.length
                   (rev (firstn (Nat.min (List.length urls)
                                   (Z.to_nat maxCount)) urls))
                 = Nat.min (List.length urls) (Z.to_nat maxCount)).
  { rewrite length_rev, length_firstn. lia. }
  destruct (mapi_from_urls borderRadius bg (count - 1)
              (rev (firstn (Nat.min (List.length urls) (Z.to_nat maxCount))
                      urls)) 0%nat) as [Hu [Hk [Ho [Hb Hf]]]].
  rewrite Hlen in Ho, Hb.
  split; [exact Hu|]. split; [now rewrite Hk, Hu|].
  split; [now rewrite <- (length_map url), Hu|].
  split; [exact Ho|]. split; [exact Hb|].
  eapply Forall_impl; [|exact Hf]. intros a [H1 [H2 H3]].
  repeat split; try assumption. rewrite H3. unfold count. lia.
Qed.

(** X14.  A negative count does not empty the stack: [slice(0, count)]
    then counts from the end, and the stack holds all urls but the last
    [-count], in reverse order. *)
Theorem negative_count_drops_from_the_end (urls : list string)
  (maxCount : Z) (borderRadius bg : nullable string) :
  maxCount < 0 ->
  List.map url
    (AvatarStack reverse (Some urls) (Some maxCount) borderRadius bg)
  = rev (firstn (List.length urls - Z.to_nat (- maxCount)) urls).
Proof.
  intros Hmax. unfold AvatarStack, mapi. cbn [nullish].
  rewrite Z.min_r by lia. rewrite reverse_rev.
  destruct (mapi_from_urls borderRadius bg (maxCount - 1)
              (rev (slice0 urls maxCount)) 0%nat) as [Hu _].
  rewrite Hu. f_equal. unfold slice0.
  destruct (Z.ltb_spec maxCount 0) as [_|H]; [|lia].
  f_equal. lia.
Qed.

End StackFacts.

Lemma stack_shows_the_first_urls_reversed_witness :
  List.map Avatar.url
    (Avatar.AvatarStack (@rev string) (Some ["a"; "b"; "c"]) (Some 2)
       Avatar.undefined Avatar.undefined)
  = rev (firstn (Nat.min 3 (Z.to_nat 2)) ["a"; "b"; "c"]).
Proof.
  apply (stack_shows_the_first_urls_reversed (@rev string)
           (fun l => eq_refl) ["a"; "b"; "c"] 2 Avatar.undefined
           Avatar.undefined).
  lia.
Defined.

Lemma negative_count_drops_from_the_end_witness :
  List.map Avatar.url
    (Avatar.AvatarStack (@rev string) (Some ["a"; "b"; "c"]) (Some (-1))
       Avatar.undefined Avatar.undefined)
  = rev (firstn (3 - Z.to_nat (- -1)) ["a"; "b"; "c"]).
Proof.
  apply (negative_count_drops_from_the_end (@rev string)
           (fun l => eq_refl) ["a"; "b"; "c"] (-1) Avatar.undefined
           Avatar.undefined).
  lia.
Defined.

(** ** The account avatar *)

Section AvatarFacts.
Import Avatar.

Variable reverse : list string -> list string.
Hypothesis reverse_rev : forall l, reverse l = rev l.

Variables accountAddress ensName : nullable string.
Variable placeholder : option bool.
Variable maxStackCount : option Z.
Variables fallbackImageUrl borderRadius bg : nullable string.

(** X15.  What the component shows.  An ENS avatar always wins: it is
    shown alone, never a stack.  The stack is shown exactly when there is
    no ENS avatar and the account has two noun avatars or more.  Nothing at
    all is shown exactly when the placeholder is turned off and no url is
    there to show: no ENS avatar, no noun avatar, no fallback. *)
Theorem which_avatar_is_shown (ensAvatarUrl : nullable string)
  (nounAvatarUrls : option (list string)) :
  let view :=
    NounsAccountAvatar reverse accountAddress ensName ensAvatarUrl
      nounAvatarUrls placeholder maxStackCount fallbackImageUrl borderRadius
      bg in
  (forall u, ensAvatarUrl = defined u ->
             exists radius signature,
               view = Single (defined u) radius signature)
  /\ ((exists avatars, view = Stack avatars) <->
      isNullish ensAvatarUrl = true
      /\ exists urls, nounAvatarUrls = Some urls
                      /\ (2 <= List.length urls)%nat)
  /\ (view = Nothing <->
      placeholder = Some false
      /\ isNullish ensAvatarUrl = true
      /\ (nounAvatarUrls = None \/ nounAvatarUrls = Some [])
      /\ isNullish fallbackImageUrl = true).
Proof.
  cbv zeta. unfold NounsAccountAvatar. split; [|split].
  - intros u ->. simpl. destruct placeholder as [[|]|]; simpl;
      eexists; eexists; reflexivity.
  - split.
    + intros [avatars H].
      destruct (isNullish ensAvatarUrl) eqn:Ens; simpl in H.
      * destruct nounAvatarUrls as [urls|].
        -- destruct (Nat.ltb_spec 1 (List.length urls)) as [Hl|Hl].
           ++ split; [reflexivity|]. exists urls. split; [reflexivity|lia].
           ++ destruct (negb (nullish placeholder true) && _); discriminate.
        -- destruct (negb (nullish placeholder true) && _); discriminate.
      * destruct (negb (nullish placeholder true) && _); discriminate.
    + intros [-> [urls [-> Hl]]]. simpl.
      destruct (Nat.ltb_spec 1 (List.length urls)) as [_|H]; [|lia].
      eexists. reflexivity.
  - split.
    + intros H. destruct (isNullish ensAvatarUrl) eqn:Ens; simpl in H.
      * destruct nounAvatarUrls as [[|u urls]|]; simpl in H.
        -- destruct placeholder as [[|]|]; simpl in H; try discriminate.
           destruct ensAvatarUrl; try discriminate;
             destruct fallbackImageUrl; try discriminate; simpl; tauto.
        -- destruct urls as [|v urls]; simpl in H; [|discriminate].
           destruct placeholder as [[|]|]; simpl in H; try discriminate;
             destruct ensAvatarUrl; discriminate.
        -- destruct placeholder as [[|]|]; simpl in H; try discriminate.
           destruct ensAvatarUrl; try discriminate;
             destruct fallbackImageUrl; try discriminate; simpl; tauto.
      * destruct ensAvatarUrl; try discriminate.
        destruct placeholder as [[|]|]; discriminate.
    + intros [-> [Hens [Hnouns Hfb]]].
      destruct ensAvatarUrl; try discriminate;
        destruct fallbackImageUrl; try discriminate;
        destruct Hnouns as [->| ->]; reflexivity.
Qed.

(** X16.  The border radius of the single avatar.  It is left out when the
    image shown is the account's noun avatar, and also when there is no
    image at all and the fallback is [undefined].  It is the [borderRadius]
    prop, "0.3rem" when that is [undefined], when the image is a fallback
    url, when it is an ENS avatar other than the noun avatar's url, and
    when there is no image but the fallback is [null]. *)
Theorem border_radius_of_the_single_avatar :
  (forall ens u fallback,
      isNullish ens = true ->
      exists signature,
        NounsAccountAvatar reverse accountAddress ensName ens (Some [u])
          placeholder maxStackCount fallback borderRadius bg
        = Single (defined u) undefined signature)
  /\ (forall ens nouns f,
         isNullish ens = true ->
         nouns = None \/ nouns = Some [] ->
         exists signature,
           NounsAccountAvatar reverse accountAddress ensName ens nouns
             placeholder maxStackCount (defined f) borderRadius bg
           = Single (defined f) (withDefault borderRadius "0.3rem")
               signature)
  /\ (forall e nouns fallback,
         (forall u urls, nouns = Some (u :: urls) -> u <> e) ->
         exists signature,
           NounsAccountAvatar reverse accountAddress ensName (defined e)
             nouns placeholder maxStackCount fallback borderRadius bg
           = Single (defined e) (withDefault borderRadius "0.3rem")
               signature)
  /\ (forall ens nouns shown,
         isNullish ens = true ->
         nouns = None \/ nouns = Some [] ->
         shown <> Some false ->
         exists signature,
           NounsAccountAvatar reverse accountAddress ensName ens nouns
             shown maxStackCount undefined borderRadius bg
           = Single undefined undefined signature
           /\ NounsAccountAvatar reverse accountAddress ensName ens nouns
                shown maxStackCount null borderRadius bg
              = Single null (withDefault borderRadius "0.3rem") signature).
Proof.
  unfold NounsAccountAvatar. split; [|split; [|split]].
  - intros ens u fallback Hens. rewrite Hens. simpl.
    destruct ens; try discriminate; simpl; rewrite String.eqb_refl;
      destruct placeholder as [[|]|]; simpl; eexists; reflexivity.
  - intros ens nouns f Hens Hnouns. rewrite Hens.
    destruct ens; try discriminate;
      destruct Hnouns as [->| ->]; simpl;
      destruct placeholder as [[|]|]; simpl; eexists; reflexivity.
  - intros e nouns fallback Hne.
    destruct nouns as [[|u urls]|]; simpl;
      try (destruct placeholder as [[|]|]; simpl; eexists; reflexivity).
    assert (Hradius : String.eqb e u = false).
    { apply String.eqb_neq. intros ->. exact (Hne u urls eq_refl eq_refl). }
    rewrite Hradius.
    destruct placeholder as [[|]|]; simpl; eexists; reflexivity.
  - intros ens nouns shown Hens Hnouns Hshown. rewrite Hens.
    destruct shown as [[|]|]; [| now elim Hshown |];
      destruct ens; try discriminate;
      destruct Hnouns as [->| ->]; simpl; eexists; split; reflexivity.
Qed.

Lemma substring_all (s : string) : substring 0 (String.length s) s = s.
Proof.
  induction s as [|c s IH]; simpl; [reflexivity|]. now rewrite IH.
Qed.

(** X17.  The stack the component shows.  With no ENS avatar and two noun
    avatars or more, and no [maxStackCount] given, the stack holds the
    account's first two noun avatars, the second drawn first; the
    [borderRadius] of the component is not handed to the avatars of the
    stack, the background is. *)
Theorem default_stack_shows_two_nouns (ens : nullable string)
  (first second : string) (others : list string) :
  isNullish ens = true ->
  exists avatars,
    NounsAccountAvatar reverse accountAddress ensName ens
      (Some (first :: second :: others)) placeholder None fallbackImageUrl
      borderRadius bg = Stack avatars
    /\ List.map url avatars = [second; first]
    /\ List.map boxShadow avatars = [false; true]
    /\ Forall (fun a => stackBorderRadius a = undefined
                        /\ background a = bg) avatars.
Proof.
  intros Hens. unfold NounsAccountAvatar. rewrite Hens. simpl.
  eexists. split; [reflexivity|].
  unfold AvatarStack, mapi. cbn [nullish].
  assert (Hcount : Z.min (Z.of_nat (List.length (first :: second :: others)))
                     2 = 2).
  { apply Z.min_r. simpl List.length. lia. }
  rewrite Hcount, reverse_rev.
  assert (Hslice : slice0 (first :: second :: others) 2 = [first; second]).
  { unfold slice0. simpl List.length.
    assert (H : Z.min 2 (Z.of_nat (S (S (List.length others)))) = 2)
      by (apply Z.min_l; lia).
    simpl (2 <? 0). cbv iota. rewrite H. reflexivity. }
  rewrite Hslice. simpl. repeat split. repeat constructor.
Qed.

(** X18.  The signature of the single avatar is the ENS name when there
    is one; otherwise it is the account address without its first two
    characters, so without the "0x", and [undefined] when there is no
    address either. *)
Theorem signature_of_the_single_avatar (ensAvatarUrl : nullable string)
  (nounAvatarUrls : option (list string)) (name address : string) :
  match NounsAccountAvatar reverse accountAddress (defined name)
          ensAvatarUrl nounAvatarUrls placeholder maxStackCount
          fallbackImageUrl borderRadius bg with
  | Single _ _ signature => signature = defined name
  | _ => True
  end
  /\ (isNullish ensName = true ->
      match NounsAccountAvatar reverse (defined ("0x" ++ address)%string)
              ensName ensAvatarUrl nounAvatarUrls placeholder maxStackCount
              fallbackImageUrl borderRadius bg with
      | Single _ _ signature => signature = defined address
      | _ => True
      end)
  /\ (isNullish ensName = true ->
      isNullish accountAddress = true ->
      match NounsAccountAvatar reverse accountAddress ensName ensAvatarUrl
              nounAvatarUrls placeholder maxStackCount fallbackImageUrl
              borderRadius bg with
      | Single _ _ signature => signature = undefined
      | _ => True
      end).
Proof.
  unfold NounsAccountAvatar. split; [|split].
  - destruct (isNullish ensAvatarUrl && _); [exact I|].
    destruct (negb (nullish placeholder true) && _); [exact I|].
    reflexivity.
  - intros Hname.
    destruct (isNullish ensAvatarUrl && _); [exact I|].
    destruct (negb (nullish placeholder true) && _); [exact I|].
    destruct ensName; try discriminate; simpl;
      unfold sliceFrom2; simpl; rewrite Nat.sub_0_r;
      now rewrite substring_all.
  - intros Hname Haddress.
    destruct (isNullish ensAvatarUrl && _); [exact I|].
    destruct (negb (nullish placeholder true) && _); [exact I|].
    destruct ensName; try discriminate;
      destruct accountAddress; try discriminate; reflexivity.
Qed.

End AvatarFacts.

Lemma which_avatar_is_shown_witness :
  (exists avatars,
      Avatar.NounsAccountAvatar (@rev string) (Avatar.defined "0xb0b")
        Avatar.undefined Avatar.null (Some ["n1"; "n2"; "n3"]) None None
        Avatar.undefined Avatar.undefined Avatar.undefined
      = Avatar.Stack avatars)
  /\ (exists radius signature,
         Avatar.NounsAccountAvatar (@rev string) (Avatar.defined "0xb0b")
           Avatar.undefined (Avatar.defined "ens.png")
           (Some ["n1"; "n2"; "n3"]) None None Avatar.undefined
           Avatar.undefined Avatar.undefined
         = Avatar.Single (Avatar.defined "ens.png") radius signature)
  /\ Avatar.NounsAccountAvatar (@rev string) (Avatar.defined "0xb0b")
       Avatar.undefined Avatar.null (Some []) (Some false) None Avatar.null
       Avatar.undefined Avatar.undefined
     = Avatar.Nothing.
Proof.
  split; [|split].
  - apply (proj1 (proj2 (which_avatar_is_shown (@rev string)
                           (Avatar.defined "0xb0b") Avatar.undefined None
                           None Avatar.undefined Avatar.undefined
                           Avatar.undefined Avatar.null
                           (Some ["n1"; "n2"; "n3"])))).
    split; [reflexivity|]. exists ["n1"; "n2"; "n3"].
    split; [reflexivity|]. simpl. lia.
  - apply (proj1 (which_avatar_is_shown (@rev string)
                    (Avatar.defined "0xb0b") Avatar.undefined None
                    None Avatar.undefined Avatar.undefined
                    Avatar.undefined (Avatar.defined "ens.png")
                    (Some ["n1"; "n2"; "n3"]))).
    reflexivity.
  - apply (proj2 (proj2 (which_avatar_is_shown (@rev string)
                           (Avatar.defined "0xb0b") Avatar.undefined
                           (Some false) None Avatar.null Avatar.undefined
                           Avatar.undefined Avatar.null (Some [])))).
    repeat split. now right.
Defined.

Lemma border_radius_of_the_single_avatar_witness :
  (exists signature,
      Avatar.NounsAccountAvatar (@rev string) (Avatar.defined "0xb0b")
        Avatar.undefined Avatar.null (Some ["n1"]) None None
        (Avatar.defined "fallback.png") (Avatar.defined "50%")
        Avatar.undefined
      = Avatar.Single (Avatar.defined "n1") Avatar.undefined signature)
  /\ (exists signature,
         Avatar.NounsAccountAvatar (@rev string) (Avatar.defined "0xb0b")
           Avatar.undefined Avatar.null None None None
           (Avatar.defined "fallback.png") (Avatar.defined "50%")
           Avatar.undefined
         = Avatar.Single (Avatar.defined "fallback.png")
             (Avatar.defined "50%") signature)
  /\ (exists signature,
         Avatar.NounsAccountAvatar (@rev string) (Avatar.defined "0xb0b")
           Avatar.undefined (Avatar.defined "ens.png") (Some ["n1"]) None
           None Avatar.undefined (Avatar.defined "50%") Avatar.undefined
         = Avatar.Single (Avatar.defined "ens.png") (Avatar.defined "50%")
             signature)
  /\ (exists signature,
         Avatar.NounsAccountAvatar (@rev string) (Avatar.defined "0xb0b")
           Avatar.undefined Avatar.null None None None Avatar.undefined
           (Avatar.defined "50%") Avatar.undefined
         = Avatar.Single Avatar.undefined Avatar.undefined signature
         /\ Avatar.NounsAccountAvatar (@rev string)
              (Avatar.defined "0xb0b") Avatar.undefined Avatar.null None
              None None Avatar.null (Avatar.defined "50%") Avatar.undefined
            = Avatar.Single Avatar.null (Avatar.defined "50%") signature).
Proof.
  destruct (border_radius_of_the_single_avatar (@rev string)
              (Avatar.defined "0xb0b") Avatar.undefined None None
              (Avatar.defined "50%") Avatar.undefined)
    as [Hnoun [Hfallback [Hens Hnone]]].
  split; [|split; [|split]].
  - apply Hnoun. reflexivity.
  - apply (Hfallback Avatar.null None "fallback.png");
      [reflexivity|now left].
  - apply (Hens "ens.png" (Some ["n1"]) Avatar.undefined).
    intros u urls H. injection H as <- _. discriminate.
  - apply (Hnone Avatar.null None None);
      [reflexivity|now left|discriminate].
Defined.

Lemma default_stack_shows_two_nouns_witness :
  exists avatars,
    Avatar.NounsAccountAvatar (@rev string) (Avatar.defined "0xb0b")
      Avatar.undefined Avatar.undefined (Some ["n1"; "n2"; "n3"]) None None
      Avatar.undefined (Avatar.defined "50%") Avatar.undefined
    = Avatar.Stack avatars
    /\ List.map Avatar.url avatars = ["n2"; "n1"]
    /\ List.map Avatar.boxShadow avatars = [false; true]
    /\ Forall (fun a => Avatar.stackBorderRadius a = Avatar.undefined
                        /\ Avatar.background a = Avatar.undefined) avatars.
Proof.
  apply (default_stack_shows_two_nouns (@rev string) (fun l => eq_refl)
           (Avatar.defined "0xb0b") Avatar.undefined None Avatar.undefined
           (Avatar.defined "50%") Avatar.undefined Avatar.undefined
           "n1" "n2" ["n3"]).
  reflexivity.
Defined.

Lemma signature_of_the_single_avatar_witness :
  match Avatar.NounsAccountAvatar (@rev string) (Avatar.defined "0xb0b")
          Avatar.null Avatar.undefined None None None Avatar.undefined
          Avatar.undefined Avatar.undefined with
  | Avatar.Single _ _ signature => signature = Avatar.defined "b0b"
  | _ => True
  end
  /\ match Avatar.NounsAccountAvatar (@rev string) Avatar.null
             Avatar.undefined Avatar.undefined None None None
             Avatar.undefined Avatar.undefined Avatar.undefined with
     | Avatar.Single _ _ signature => signature = Avatar.undefined
     | _ => True
     end.
Proof.
  split.
  - apply (proj1 (proj2 (signature_of_the_single_avatar (@rev string)
                           Avatar.undefined Avatar.null None None
                           Avatar.undefined Avatar.undefined
                           Avatar.undefined Avatar.undefined None
                           "vitalik.eth" "b0b"))).
    reflexivity.
  - apply (proj2 (proj2 (signature_of_the_single_avatar (@rev string)
                           Avatar.null Avatar.undefined None None
                           Avatar.undefined Avatar.undefined
                           Avatar.undefined Avatar.undefined None
                           "vitalik.eth" "b0b"))); reflexivity.
Defined.

(** ** The noun avatars hook *)

Section HookFacts.
Import Avatar.

Variable Seed : Type.
Variable build : Seed -> bool -> string.

Lemma run_snoc (events : list (Event Seed)) (e : Event Seed) (h : Hook) :
  run build (events ++ [e]) h = step build (run build events h) e.
Proof.
  unfold run. now rewrite fold_left_app.
Qed.

Lemma askedFor_more (events : list (Event Seed)) (e : Event Seed)
  (urls : list string) :
  askedFor build events urls -> askedFor build (events ++ [e]) urls.
Proof.
  intros [a [Ha Hu]]. exists a. split; [|exact Hu].
  apply in_or_app. now left.
Qed.

Lemma render_avatarUrls (a : Args Seed) (h : Hook) :
  avatarUrls (render build a h) = avatarUrls h.
Proof.
  unfold render, effect.
  destruct (match lastDependencies h with
            | Some d => negb (sameDependencies d (dependencies a))
            | None => true
            end); [|reflexivity].
  destruct (seeds a); [|reflexivity]. now destruct (enabled a).
Qed.

Lemma render_pending (a : Args Seed) (h : Hook) (urls : list string) :
  In urls (pending (render build a h)) ->
  In urls (pending h) \/ urlsOf build a = Some urls.
Proof.
  unfold render, effect, urlsOf.
  destruct (match lastDependencies h with
            | Some d => negb (sameDependencies d (dependencies a))
            | None => true
            end); [|now left].
  destruct (seeds a) as [s|]; [|now left].
  destruct (enabled a); [|now left]. simpl.
  intros H. apply in_app_or in H. destruct H as [H|[<-|[]]]; [now left|].
  now right.
Qed.

Lemma resolve_pending (n : nat) (h : Hook) (urls : list string) :
  In urls (pending (resolve n h)) -> In urls (pending h).
Proof.
  unfold resolve. destruct (nth_error (pending h) n); [|trivial]. simpl.
  intros H. apply in_app_or in H. destruct H as [H|H].
  - rewrite <- (firstn_skipn n (pending h)). apply in_or_app. now left.
  - rewrite <- (firstn_skipn (S n) (pending h)). apply in_or_app. now right.
Qed.

Lemma resolve_avatarUrls (n : nat) (h : Hook) (urls : list string) :
  avatarUrls (resolve n h) = Some urls ->
  avatarUrls h = Some urls \/ In urls (pending h).
Proof.
  unfold resolve. destruct (nth_error (pending h) n) as [u|] eqn:En.
  - simpl. intros H. injection H as <-. right.
    now apply nth_error_In with n.
  - now left.
Qed.

(** Whatever the hook holds or is waiting for was asked for by a render. *)
Lemma hook_invariant (events : list (Event Seed)) :
  (forall urls, avatarUrls (run build events mount) = Some urls ->
                askedFor build events urls)
  /\ (forall urls, In urls (pending (run build events mount)) ->
                   askedFor build events urls).
Proof.
  induction events as [|e events [IHstate IHpending]] using rev_ind.
  - split; [discriminate|]. intros urls [].
  - rewrite run_snoc. destruct e as [a|n]; cbn [step]; split; intros urls H.
    + rewrite render_avatarUrls in H. now apply askedFor_more, IHstate.
    + apply render_pending in H. destruct H as [H|H].
      * now apply askedFor_more, IHpending.
      * exists a. split; [|exact H]. apply in_or_app. right. now left.
    + apply resolve_avatarUrls in H. destruct H as [H|H].
      * now apply askedFor_more, IHstate.
      * now apply askedFor_more, IHpending.
    + apply resolve_pending in H. now apply askedFor_more, IHpending.
Qed.

Lemma urls_provenance (events : list (Event Seed)) (urls : list string) :
  avatarUrls (run build events mount) = Some urls ->
  exists (a : Args Seed) (s : list Seed),
    In (Render a) events
    /\ enabled a = true
    /\ seeds a = Some s
    /\ urls = List.map (fun seed => build seed (transparent a)) s
    /\ List.length urls = List.length s.
Proof.
  intros H.
  destruct (proj1 (hook_invariant events) urls H) as [a [Ha Hu]].
  unfold urlsOf in Hu. destruct (enabled a) eqn:Ea; [|discriminate].
  destruct (seeds a) as [s|] eqn:Es; [|discriminate].
  injection Hu as <-. exists a, s. repeat split; try assumption.
  apply length_map.
Qed.

Lemma no_request_no_urls (events : list (Event Seed)) :
  Forall (fun e : Event Seed => asksForUrls e = false) events ->
  avatarUrls (run build events mount) = None.
Proof.
  intros Hnone.
  destruct (avatarUrls (run build events mount)) as [urls|] eqn:Hu;
    [|reflexivity].
  destruct (urls_provenance events urls Hu) as [a [s [Ha [Ea [Es _]]]]].
  rewrite Forall_forall in Hnone. specialize (Hnone _ Ha).
  simpl in Hnone. rewrite Ea, Es in Hnone. discriminate.
Qed.

Lemma ensOnly_never_asks (nounSeeds : option (list Seed))
  (ensOnly t : bool) (ensAvatarUrl : nullable string) :
  ensOnly = true \/ isNullish ensAvatarUrl = false ->
  asksForUrls (Render (nounAvatarsArgs nounSeeds ensOnly t ensAvatarUrl))
  = false.
Proof.
  intros [->|Hens]; simpl; [reflexivity|].
  rewrite Hens. now rewrite andb_false_r.
Qed.

(** X19.  The urls the hook holds, after any run of renders and resolved
    imports since the mount, are the urls of the seeds of one of these
    renders, one that was enabled, built with its [transparent]: one url
    for each seed.  So a hook that was never enabled with seeds, as under
    [ensOnly] or while an ENS avatar is known, holds no urls. *)
Theorem urls_come_from_an_enabled_render (events : list (Event Seed)) :
  (forall urls : list string,
      avatarUrls (run build events mount) = Some urls ->
      exists (a : Args Seed) (s : list Seed),
        In (Render a) events
        /\ enabled a = true
        /\ seeds a = Some s
        /\ urls = List.map (fun seed => build seed (transparent a)) s
        /\ List.length urls = List.length s)
  /\ (Forall (fun e : Event Seed => asksForUrls e = false) events ->
      avatarUrls (run build events mount) = None)
  /\ (forall (nounSeeds : option (list Seed)) ensOnly t ensAvatarUrl,
         ensOnly = true \/ isNullish ensAvatarUrl = false ->
         asksForUrls
           (Render (nounAvatarsArgs nounSeeds ensOnly t ensAvatarUrl))
         = false).
Proof.
  split; [apply urls_provenance|]. split.
  - apply no_request_no_urls.
  - apply ensOnly_never_asks.
Qed.

(** X20.  The hook never forgets: once it holds urls it holds urls after
    any further renders and resolved imports, also when it is no longer
    enabled or has lost its seeds; and renders alone leave what it holds
    exactly as it is. *)
Theorem urls_are_never_cleared (events : list (Event Seed)) (h : Hook) :
  (avatarUrls h <> None -> avatarUrls (run build events h) <> None)
  /\ (Forall (fun e : Event Seed => exists a, e = Render a) events ->
      avatarUrls (run build events h) = avatarUrls h).
Proof.
  split.
  - revert h. induction events as [|e events IH]; intros h Hh;
      [exact Hh|].
    apply IH. destruct e as [a|n]; cbn [step].
    + now rewrite render_avatarUrls.
    + unfold resolve. destruct (nth_error (pending h) n);
        [discriminate|exact Hh].
  - revert h. induction events as [|e events IH]; intros h Hall;
      [reflexivity|].
    inversion Hall as [|? ? [a ->] Hrest]; subst.
    change (avatarUrls (run build events (render build a h))
            = avatarUrls h).
    rewrite (IH _ Hrest). apply render_avatarUrls.
Qed.

(** X21.  New seeds are not picked up.  A render whose [enabled],
    [transparent] and having-seeds are those of the render before starts
    no import, whatever its seeds; so after the seeds have changed from
    one list to another the hook still holds the urls of the first. *)
Theorem changed_seeds_are_not_picked_up (a a' : Args Seed) (h : Hook)
  (s s' : list Seed) :
  (dependencies a' = dependencies a ->
   render build a' (render build a h) = render build a h)
  /\ (enabled a = true -> seeds a = Some s ->
      enabled a' = true -> seeds a' = Some s' ->
      transparent a' = transparent a ->
      avatarUrls
        (run build [Render a; Resolve 0; Render a'; Resolve 0] mount)
      = Some (List.map (fun seed => build seed (transparent a)) s)).
Proof.
  split.
  - intros Hd. unfold render at 1. cbn [lastDependencies render].
    rewrite Hd.
    assert (Hsame : sameDependencies (dependencies a) (dependencies a)
                    = true).
    { destruct (dependencies a) as [[d1 d2] d3]. simpl.
      now rewrite !Bool.eqb_reflx. }
    rewrite Hsame. reflexivity.
  - intros Ea Es Ea' Es' Ht. unfold run. simpl.
    unfold render, effect, dependencies. simpl.
    rewrite Ea, Es. simpl. unfold resolve. simpl.
    rewrite Ea', Es', Ht. simpl.
    rewrite !Bool.eqb_reflx. simpl. reflexivity.
Qed.

(** X22.  An account shown with [ensOnly], from the mount on, never shows
    a noun: the hook is never enabled, so it holds no urls whatever has
    been rendered or resolved, and the component shows no stack; the image
    of the single avatar is the ENS avatar or else the fallback. *)
Theorem ens_only_shows_no_noun (reverse : list string -> list string)
  (events : list (Event Seed))
  (accountAddress ensName ensAvatarUrl : nullable string)
  (placeholder : option bool) (maxStackCount : option Z)
  (fallbackImageUrl borderRadius bg : nullable string) :
  Forall (fun e : Event Seed =>
            forall a, e = Render a ->
                      exists nounSeeds t ens,
                        a = nounAvatarsArgs nounSeeds true t ens) events ->
  let view :=
    NounsAccountAvatar reverse accountAddress ensName ensAvatarUrl
      (avatarUrls (run build events mount)) placeholder maxStackCount
      fallbackImageUrl borderRadius bg in
  avatarUrls (run build events mount) = None
  /\ (forall avatars, view <> Stack avatars)
  /\ (forall imageUrl radius signature,
         view = Single imageUrl radius signature ->
         imageUrl = coalesce ensAvatarUrl fallbackImageUrl).
Proof.
  intros Hall. cbv zeta.
  assert (Hnone : avatarUrls (run build events mount) = None).
  { apply no_request_no_urls. eapply Forall_impl; [|exact Hall].
    intros [a|n] He; [|reflexivity].
    destruct (He a eq_refl) as [nounSeeds [t [ens ->]]].
    apply ensOnly_never_asks. now left. }
  rewrite Hnone. split; [reflexivity|]. unfold NounsAccountAvatar.
  rewrite andb_false_r. split.
  - intros avatars.
    destruct (negb (nullish placeholder true) && _); discriminate.
  - intros imageUrl radius signature.
    destruct (negb (nullish placeholder true) && _); [discriminate|].
    intros H. injection H as <- _ _.
    destruct ensAvatarUrl; reflexivity.
Qed.

End HookFacts.

Lemma urls_come_from_an_enabled_render_witness :
  Avatar.avatarUrls
    (Avatar.run exampleBuild
       [ Avatar.Render (Avatar.nounAvatarsArgs (Some [1; 2]%nat) true false
                          Avatar.undefined);
         Avatar.Resolve 0;
         Avatar.Render (Avatar.nounAvatarsArgs (Some [1; 2]%nat) false false
                          (Avatar.defined "ens.png")) ]
       Avatar.mount) = None
  /\ exists (a : Avatar.Args nat) (s : list nat),
      In (Avatar.Render a)
        [ Avatar.Render (Avatar.mkArgs (Some [1; 2]%nat) true true);
          Avatar.Resolve 0 ]
      /\ Avatar.enabled a = true
      /\ Avatar.seeds a = Some s
      /\ ["t1"; "t2"]
         = List.map (fun seed => exampleBuild seed (Avatar.transparent a)) s
      /\ List.length ["t1"; "t2"] = List.length s.
Proof.
  split.
  - apply (proj1 (proj2 (urls_come_from_an_enabled_render nat exampleBuild
                           _))).
    repeat constructor.
  - apply (proj1 (urls_come_from_an_enabled_render nat exampleBuild
                    [ Avatar.Render
                        (Avatar.mkArgs (Some [1; 2]%nat) true true);
                      Avatar.Resolve 0 ])).
    reflexivity.
Defined.

Lemma urls_are_never_cleared_witness :
  Avatar.avatarUrls
    (Avatar.run exampleBuild
       [ Avatar.Render (Avatar.mkArgs None false true);
         Avatar.Render (Avatar.mkArgs (Some [3]%nat) true false) ]
       (Avatar.mkHook (Some ["o1"; "o2"]) None []))
  = Some ["o1"; "o2"]
  /\ Avatar.avatarUrls
       (Avatar.run exampleBuild
          [ Avatar.Render (Avatar.mkArgs (Some [3]%nat) true false);
            Avatar.Resolve 0;
            Avatar.Render (Avatar.mkArgs None false false) ]
          (Avatar.mkHook (Some ["o1"; "o2"]) None [])) <> None.
Proof.
  split.
  - apply (proj2 (urls_are_never_cleared nat exampleBuild
                    [ Avatar.Render (Avatar.mkArgs None false true);
                      Avatar.Render
                        (Avatar.mkArgs (Some [3]%nat) true false) ]
                    (Avatar.mkHook (Some ["o1"; "o2"]) None []))).
    repeat constructor; eexists; reflexivity.
  - apply (proj1 (urls_are_never_cleared nat exampleBuild
                    [ Avatar.Render
                        (Avatar.mkArgs (Some [3]%nat) true false);
                      Avatar.Resolve 0;
                      Avatar.Render (Avatar.mkArgs None false false) ]
                    (Avatar.mkHook (Some ["o1"; "o2"]) None []))).
    discriminate.
Defined.

Lemma changed_seeds_are_not_picked_up_witness :
  Avatar.avatarUrls
    (Avatar.run exampleBuild
       [ Avatar.Render (Avatar.mkArgs (Some [1; 2]%nat) true false);
         Avatar.Resolve 0;
         Avatar.Render (Avatar.mkArgs (Some [7; 8; 9]%nat) true false);
         Avatar.Resolve 0 ] Avatar.mount)
  = Some (List.map (fun seed => exampleBuild seed false) [1; 2]%nat)
  /\ Avatar.render exampleBuild
       (Avatar.mkArgs (Some [7; 8; 9]%nat) true false)
       (Avatar.render exampleBuild
          (Avatar.mkArgs (Some [1; 2]%nat) true false) Avatar.mount)
     = Avatar.render exampleBuild
         (Avatar.mkArgs (Some [1; 2]%nat) true false) Avatar.mount.
Proof.
  destruct (changed_seeds_are_not_picked_up nat exampleBuild
              (Avatar.mkArgs (Some [1; 2]%nat) true false)
              (Avatar.mkArgs (Some [7; 8; 9]%nat) true false)
              Avatar.mount [1; 2]%nat [7; 8; 9]%nat) as [Hsame Hstale].
  split.
  - apply Hstale; reflexivity.
  - apply Hsame. reflexivity.
Defined.

Lemma ens_only_shows_no_noun_witness :
  Avatar.avatarUrls
    (Avatar.run exampleBuild
       [ Avatar.Render (Avatar.nounAvatarsArgs (Some [1; 2]%nat) true false
                          Avatar.undefined);
         Avatar.Resolve 0 ] Avatar.mount) = None.
Proof.
  apply (ens_only_shows_no_noun nat exampleBuild (@rev string)
           [ Avatar.Render (Avatar.nounAvatarsArgs (Some [1; 2]%nat) true
                              false Avatar.undefined);
             Avatar.Resolve 0 ]
           (Avatar.defined "0xb0b") Avatar.undefined Avatar.undefined None
           None Avatar.undefined Avatar.undefined Avatar.undefined).
  constructor.
  - intros a H. injection H as <-. now eexists; eexists; eexists.
  - constructor; [|constructor]. intros a H. discriminate.
Defined.

(** ** The rows of the members screen *)

(** X23.  Every row of the list stands for a member of the channel: its
    key and the user its selection opens, in the "User modal", are that
    member's id, and it shows that member's address, ENS name, picture and
    status.  For members that come without flags the row is marked blocked
    exactly when the member is not the viewer and is blocked, and shows the
    star exactly when the member is not the viewer, is not blocked and is
    starred. *)
Theorem rows_stand_for_members
  (createUserDefaultComparator : Members.Member -> Members.Member -> Z)
  (searchUsers : list Members.Member -> code_units -> list Members.Member)
  (state : Members.State) (channelId : string) (query : code_units)
  (key : string) (row : MembersList.UserListItem) :
  (forall users q u, In u (searchUsers users q) -> In u users) ->
  Forall (fun m => Members.isBlocked m = false
                   /\ Members.isStarred m = false)
    (Members.selectChannelMembers state channelId) ->
  In (key, row)
    (MembersList.rows
       (Members.filteredMembers createUserDefaultComparator searchUsers
          state channelId query)) ->
  exists m : Members.Member,
    In m (Members.selectChannelMembers state channelId)
    /\ key = Members.id m
    /\ MembersList.onSelect row
       = MembersList.navigate "User modal" (Members.id m)
    /\ MembersList.address row = Members.walletAddress m
    /\ MembersList.itemEnsName row = Members.ensName m
    /\ MembersList.itemProfilePicture row = Members.profilePicture m
    /\ MembersList.status row = Members.onlineStatus m
    /\ let self :=
         String.eqb (Members.id m) (Members.id (Members.selectMe state)) in
       let isBlocked := Members.selectIsUserBlocked state (Members.id m) in
       let isStarred :=
         Members.includes (Members.selectStarredUserIds state)
           (Members.id m) in
       MembersList.blocked row = negb self && isBlocked
       /\ MembersList.starIcon row = negb self && negb isBlocked && isStarred.
Proof.
  intros Hsearch Hflags Hin. unfold MembersList.rows in Hin.
  apply in_map_iff in Hin. destruct Hin as [out [Hrow Hout]].
  injection Hrow as <- <-.
  destruct (filtered_annotated createUserDefaultComparator searchUsers state
              channelId Hsearch query out Hout) as [m [Hm ->]].
  rewrite Forall_forall in Hflags. destruct (Hflags m Hm) as [Hb Hs].
  exists m. split; [exact Hm|].
  unfold MembersList.keyExtractor, MembersList.renderItem. cbv zeta.
  cbn [MembersList.onSelect MembersList.address MembersList.itemEnsName
         MembersList.itemProfilePicture MembersList.status
         MembersList.blocked MembersList.starIcon].
  unfold Members.annotate.
  destruct (String.eqb (Members.id m) (Members.id (Members.selectMe state)));
    [simpl; rewrite Hb, Hs; repeat split|].
  destruct (Members.selectIsUserBlocked state (Members.id m));
    [simpl; rewrite Hs; repeat split|].
  destruct (Members.includes (Members.selectStarredUserIds state)
              (Members.id m)); simpl; rewrite ?Hb, ?Hs; repeat split.
Qed.

Lemma rows_stand_for_members_witness :
  exists m : Members.Member,
    In m (Members.selectChannelMembers aliceState "general")
    /\ "3"%string = Members.id m
    /\ MembersList.onSelect (MembersList.renderItem (Members.asStarred carol))
       = MembersList.navigate "User modal" (Members.id m)
    /\ MembersList.address (MembersList.renderItem (Members.asStarred carol))
       = Members.walletAddress m
    /\ MembersList.itemEnsName
         (MembersList.renderItem (Members.asStarred carol))
       = Members.ensName m
    /\ MembersList.itemProfilePicture
         (MembersList.renderItem (Members.asStarred carol))
       = Members.profilePicture m
    /\ MembersList.status (MembersList.renderItem (Members.asStarred carol))
       = Members.onlineStatus m
    /\ let self :=
         String.eqb (Members.id m) (Members.id (Members.selectMe aliceState))
       in
       let isBlocked :=
         Members.selectIsUserBlocked aliceState (Members.id m) in
       let isStarred :=
         Members.includes (Members.selectStarredUserIds aliceState)
           (Members.id m) in
       MembersList.blocked (MembersList.renderItem (Members.asStarred carol))
       = negb self && isBlocked
       /\ MembersList.starIcon
            (MembersList.renderItem (Members.asStarred carol))
          = negb self && negb isBlocked && isStarred.
Proof.
  apply (rows_stand_for_members byDisplayName searchByName aliceState
           "general" [] "3"
           (MembersList.renderItem (Members.asStarred carol))
           searchByName_returns_members).
  - repeat constructor.
  - simpl. right. right. left. reflexivity.
Defined.
